(** * TouchGrass verifier server: the [/api/verify] pipeline

    A shallow embedding of the request handler of [index.js]
    ([app.post("/api/verify", ...)]) and of the ECMAScript operations it
    relies on, followed by the properties of the verification-and-commit
    pipeline.  The identity-lookup proxy ([GET /api/farcaster/:address]),
    the allowlist of origins and the start-up validation of the
    environment are embedded beside it.

    Conventions of the embedding.
    - Texts are Rocq [string]s: an ASCII character is one byte, a
      character outside ASCII stands as its UTF-8 bytes.  On ASCII texts
      the string operations are exact: [toUpperCase] maps [a-z] to [A-Z]
      and the white space removed by [trim] and skipped by [Number] is
      TAB, LF, VT, FF, CR and SPACE.  Outside ASCII [toUpperCase] maps
      the characters whose upper-case form holds the letter S (U+017F,
      U+00DF, U+FB05, U+FB06) and keeps the others; lengths count bytes
      and the white space outside ASCII is not trimmed.
    - A field of [req.body] is a JSON value, or [JUndefined] when the key is
      absent.
    - The collaborators (the evaluator client, the ledger contract) are a
      [World]: what each call settles to.  The handler is a computation in a
      small monad [M] that threads the sequence of observable events
      (collaborator calls, log lines, responses) and an abrupt completion. *)

From Stdlib Require Import ZArith NArith List String Ascii Bool Lia.
From Stdlib Require Import DecimalString.
Import ListNotations.

Set Warnings "-register-all".

Local Open Scope string_scope.
Local Open Scope bool_scope.

(** ** ECMAScript fragments *)

Module Js.

(** *** Strings *)

(** WhiteSpace and LineTerminator code points below 128. *)
Definition is_white_space (c : ascii) : bool :=
  match nat_of_ascii c with
  | 9 | 10 | 11 | 12 | 13 | 32 => true
  | _ => false
  end.

Fixpoint trimStart (s : string) : string :=
  match s with
  | "" => ""
  | String c r => if is_white_space c then trimStart r else s
  end.

Fixpoint trimEnd (s : string) : string :=
  match s with
  | "" => ""
  | String c r =>
      match trimEnd r with
      | "" => if is_white_space c then "" else String c ""
      | r' => String c r'
      end
  end.

(** [String.prototype.trim] *)
Definition trim (s : string) : string := trimEnd (trimStart s).

Definition is_lower (c : ascii) : bool :=
  (97 <=? nat_of_ascii c)%nat && (nat_of_ascii c <=? 122)%nat.

Definition upper_char (c : ascii) : ascii :=
  if is_lower c then ascii_of_nat (nat_of_ascii c - 32) else c.

Definition is_ascii (c : ascii) : bool := (nat_of_ascii c <? 128)%nat.

Definition is_byte (n : nat) (c : ascii) : bool := (nat_of_ascii c =? n)%nat.

(** The characters outside ASCII whose upper-case form holds the letter S,
    in UTF-8: U+017F (long s), U+00DF (sharp s), U+FB05 and U+FB06 (the
    ligatures of long s and t, of s and t). *)
Definition long_s : string :=
  String (ascii_of_nat 197) (String (ascii_of_nat 191) "").
Definition ligature_long_s_t : string :=
  String (ascii_of_nat 239) (String (ascii_of_nat 172)
    (String (ascii_of_nat 133) "")).
Definition ligature_s_t : string :=
  String (ascii_of_nat 239) (String (ascii_of_nat 172)
    (String (ascii_of_nat 134) "")).

(** [String.prototype.toUpperCase].  An ASCII letter goes to its capital.
    Outside ASCII, U+017F goes to "S", U+00DF to "SS", U+FB05 and U+FB06
    to "ST"; the bytes of any other character are kept.  No other
    upper-case form holds an E or an S, and the one that holds a Y
    (U+1E99) has a combining mark after it: whether "YES" occurs in the
    result, the only use the handler makes of it, is as in the source. *)
Fixpoint toUpperCase (s : string) : string :=
  match s with
  | "" => ""
  | String c r =>
      if is_ascii c then String (upper_char c) (toUpperCase r)
      else
        match r with
        | "" => String c ""
        | String c1 r1 =>
            if is_byte 197 c && is_byte 191 c1 then
              String "S" (toUpperCase r1)
            else if is_byte 195 c && is_byte 159 c1 then
              String "S" (String "S" (toUpperCase r1))
            else
              match r1 with
              | String c2 r2 =>
                  if is_byte 239 c && is_byte 172 c1
                     && (is_byte 133 c2 || is_byte 134 c2) then
                    String "S" (String "T" (toUpperCase r2))
                  else String c (toUpperCase r)
              | "" => String c (toUpperCase r)
              end
        end
  end.

(** [needle] occurs in [s] at position 0. *)
Fixpoint starts_with (s needle : string) {struct needle} : bool :=
  match needle with
  | "" => true
  | String a needle' =>
      match s with
      | "" => false
      | String b s' => (a =? b)%char && starts_with s' needle'
      end
  end.

(** [String.prototype.includes]: [needle] occurs in [s] at some position. *)
Fixpoint includes (s needle : string) : bool :=
  starts_with s needle ||
  match s with
  | "" => false
  | String _ r => includes r needle
  end.


(** *** Numbers *)

(** A Number value.  A finite non-zero value is named by the decimal digits
    [digits] and the exponent [n] that [Number::toString] works with: the
    value is [digits * 10^(n - k)], [k] being the number of digits. *)
Inductive number : Type :=
| NaN
| Infinity (negative : bool)
| Zero (negative : bool)
| Finite (negative : bool) (digits : positive) (n : Z).

Definition number_isNaN (x : number) : bool :=
  match x with NaN => true | _ => false end.

Definition decimal_of_pos (p : positive) : string :=
  NilEmpty.string_of_uint (Pos.to_uint p).

Definition decimal_of_Z_abs (z : Z) : string :=
  match z with
  | Z0 => "0"
  | Zpos p | Zneg p => decimal_of_pos p
  end.

Fixpoint zeros (k : nat) : string :=
  match k with O => "" | S k' => String "0" (zeros k') end.

(** [Number::toString] in radix 10. *)
Definition Number_toString (x : number) : string :=
  match x with
  | NaN => "NaN"
  | Infinity neg => if neg then "-Infinity" else "Infinity"
  | Zero _ => "0"
  | Finite neg s n =>
      let ds := decimal_of_pos s in
      let k := Z.of_nat (length ds) in
      let body :=
        if ((k <=? n) && (n <=? 21))%Z then
          ds ++ zeros (Z.to_nat (n - k))
        else if ((0 <? n) && (n <=? 21))%Z then
          substring 0 (Z.to_nat n) ds ++ "." ++
          substring (Z.to_nat n) (length ds - Z.to_nat n) ds
        else if ((-6 <? n) && (n <=? 0))%Z then
          "0." ++ zeros (Z.to_nat (- n)) ++ ds
        else
          let e := (n - 1)%Z in
          let sign := if (e <? 0)%Z then "-" else "+" in
          let mantissa :=
            match ds with
            | String d "" => String d ""
            | String d more => String d ("." ++ more)
            | "" => ""
            end in
          mantissa ++ "e" ++ sign ++ decimal_of_Z_abs e
      in
      if neg then "-" ++ body else body
  end.

(** *** The grammar of [StringToNumber] *)

Definition in_range (lo hi : nat) (c : ascii) : bool :=
  (lo <=? nat_of_ascii c)%nat && (nat_of_ascii c <=? hi)%nat.

Definition is_digit (c : ascii) : bool := in_range 48 57 c.
Definition is_binary_digit (c : ascii) : bool := in_range 48 49 c.
Definition is_octal_digit (c : ascii) : bool := in_range 48 55 c.
Definition is_hex_digit (c : ascii) : bool :=
  is_digit c || in_range 97 102 c || in_range 65 70 c.

Fixpoint all_chars (p : ascii -> bool) (s : string) : bool :=
  match s with
  | "" => true
  | String c r => p c && all_chars p r
  end.

Definition one_or_more (p : ascii -> bool) (s : string) : bool :=
  match s with
  | "" => false
  | _ => all_chars p s
  end.

(** Splits off the longest prefix of decimal digits: its length and the
    rest. *)
Fixpoint skip_digits (s : string) : nat * string :=
  match s with
  | String c r =>
      if is_digit c then let (k, rest) := skip_digits r in (S k, rest)
      else (O, s)
  | "" => (O, "")
  end.

Definition is_NonDecimalIntegerLiteral (s : string) : bool :=
  match s with
  | String "0" (String x r) =>
      if (x =? "b")%char || (x =? "B")%char then one_or_more is_binary_digit r
      else if (x =? "o")%char || (x =? "O")%char then one_or_more is_octal_digit r
      else if (x =? "x")%char || (x =? "X")%char then one_or_more is_hex_digit r
      else false
  | _ => false
  end.

Definition is_SignedInteger (s : string) : bool :=
  match s with
  | String "+" r => one_or_more is_digit r
  | String "-" r => one_or_more is_digit r
  | _ => one_or_more is_digit s
  end.

Definition is_optional_ExponentPart (s : string) : bool :=
  match s with
  | "" => true
  | String c r => ((c =? "e")%char || (c =? "E")%char) && is_SignedInteger r
  end.

Definition is_StrUnsignedDecimalLiteral (s : string) : bool :=
  (s =? "Infinity") ||
  let (i, r) := skip_digits s in
  match r with
  | String "." r1 =>
      let (f, r2) := skip_digits r1 in
      (0 <? i + f)%nat && is_optional_ExponentPart r2
  | _ => (0 <? i)%nat && is_optional_ExponentPart r
  end.

Definition is_StrDecimalLiteral (s : string) : bool :=
  match s with
  | String "+" r => is_StrUnsignedDecimalLiteral r
  | String "-" r => is_StrUnsignedDecimalLiteral r
  | _ => is_StrUnsignedDecimalLiteral s
  end.

(** [isNaN(StringToNumber(s))]: the text, white space stripped, is neither
    empty (which converts to 0) nor a [StrNumericLiteral]. *)
Definition StringToNumber_isNaN (s : string) : bool :=
  match trim s with
  | "" => false
  | t => negb (is_StrDecimalLiteral t || is_NonDecimalIntegerLiteral t)
  end.

(** *** Values, errors and completions *)

(** The values a field of a parsed JSON body can hold; [JUndefined] is what
    destructuring yields for an absent key.  The properties of an object are
    its own data properties, in order. *)
Inductive JsValue : Type :=
| JUndefined
| JNull
| JBool (b : bool)
| JNumber (x : number)
| JString (s : string)
| JArray (elements : list JsValue)
| JObject (properties : list (string * JsValue)).

(** An [Error] object as the [catch] block reads it: [message], [code] and
    whether [response] is set.  [None] is [undefined]. *)
Record JsError : Type := mkError {
  error_message : option string;
  error_code : option string;
  error_response : bool
}.

Definition TypeError (msg : string) : JsError :=
  {| error_message := Some msg; error_code := None; error_response := false |}.

(** A completion record: a normal value or a thrown error. *)
Inductive Completion (A : Type) : Type :=
| Normal (a : A)
| Throw (e : JsError).
Arguments Normal {A} a.
Arguments Throw {A} e.

Definition ToBoolean (v : JsValue) : bool :=
  match v with
  | JUndefined | JNull => false
  | JBool b => b
  | JNumber NaN | JNumber (Zero _) => false
  | JNumber _ => true
  | JString "" => false
  | JString _ => true
  | JArray _ | JObject _ => true
  end.

Definition typeof (v : JsValue) : string :=
  match v with
  | JUndefined => "undefined"
  | JNull => "object"
  | JBool _ => "boolean"
  | JNumber _ => "number"
  | JString _ => "string"
  | JArray _ | JObject _ => "object"
  end.

(** *** ToPrimitive on parsed JSON *)

Inductive Hint : Type := HintNumber | HintString.

(** What [Get(O, name)] finds for [name] among "valueOf" and "toString": an
    own data property of parsed JSON is never callable; otherwise the
    method inherited from the prototype. *)
Inductive Method : Type :=
| NotCallable
| Object_prototype_valueOf
| Prototype_toString.

Definition has_own (own : list string) (name : string) : bool :=
  existsb (String.eqb name) own.

Definition GetMethod (own : list string) (name : string) : Method :=
  if has_own own name then NotCallable
  else if name =? "valueOf" then Object_prototype_valueOf
  else Prototype_toString.

Definition cannot_convert : JsError :=
  TypeError "Cannot convert object to primitive value".

(** [OrdinaryToPrimitive(O, hint)].  [own] lists the own property names of
    [O] and [proto_toString] is what the inherited [toString] completes
    with.  A method that is not callable is skipped;
    [Object.prototype.valueOf] returns [O] itself, not a primitive, so the
    next method is tried; when both are exhausted a TypeError is thrown. *)
Definition OrdinaryToPrimitive (hint : Hint) (own : list string)
    (proto_toString : Completion string) : Completion string :=
  let try_method (name : string) (next : Completion string) :=
    match GetMethod own name with
    | NotCallable => next
    | Object_prototype_valueOf => next
    | Prototype_toString => proto_toString
    end in
  match hint with
  | HintNumber =>
      try_method "valueOf" (try_method "toString" (Throw cannot_convert))
  | HintString =>
      try_method "toString" (try_method "valueOf" (Throw cannot_convert))
  end.

(** [ToString] of a primitive value. *)
Definition primitive_to_string (v : JsValue) : string :=
  match v with
  | JUndefined => "undefined"
  | JNull => "null"
  | JBool true => "true"
  | JBool false => "false"
  | JNumber x => Number_toString x
  | JString s => s
  | JArray _ | JObject _ => ""
  end.

(** [ToPrimitive(v, hint)] followed by [ToString] of the primitive.  An
    array has no own "valueOf" or "toString" (its own keys are indices and
    "length"), and [Array.prototype.toString] is [join(",")], which maps
    [undefined] and [null] elements to the empty text and applies
    [ToString] to the others.  A plain object inherits
    [Object.prototype.toString], which yields "[object Object]". *)
Fixpoint ToPrimitiveString (hint : Hint) (v : JsValue) : Completion string :=
  match v with
  | JArray elements =>
      let fix join (l : list JsValue) : Completion string :=
        match l with
        | [] => Normal ""
        | x :: rest =>
            let element :=
              match x with
              | JUndefined | JNull => Normal ""
              | _ => ToPrimitiveString HintString x
              end in
            match element with
            | Throw e => Throw e
            | Normal s =>
                match rest with
                | [] => Normal s
                | _ =>
                    match join rest with
                    | Throw e => Throw e
                    | Normal r => Normal (s ++ "," ++ r)
                    end
                end
            end
        end in
      OrdinaryToPrimitive hint [] (join elements)
  | JObject properties =>
      OrdinaryToPrimitive hint (map fst properties) (Normal "[object Object]")
  | _ => Normal (primitive_to_string v)
  end.

(** [ToString(v)], as a template literal applies it. *)
Definition ToString (v : JsValue) : Completion string :=
  ToPrimitiveString HintString v.

(** The text of a string value ([""] for any other value; the handler reads
    it only behind a [typeof] test). *)
Definition string_value (v : JsValue) : string :=
  match v with
  | JString s => s
  | _ => ""
  end.

(** [isNaN(Number(v))]. *)
Definition isNaN_Number (v : JsValue) : Completion bool :=
  match v with
  | JUndefined => Normal true
  | JNull => Normal false
  | JBool _ => Normal false
  | JNumber x => Normal (number_isNaN x)
  | JString s => Normal (StringToNumber_isNaN s)
  | JArray _ | JObject _ =>
      match ToPrimitiveString HintNumber v with
      | Throw e => Throw e
      | Normal s => Normal (StringToNumber_isNaN s)
      end
  end.

(** *** More of strings, and property reads *)

Definition is_upper (c : ascii) : bool := in_range 65 90 c.

Definition lower_char (c : ascii) : ascii :=
  if is_upper c then ascii_of_nat (nat_of_ascii c + 32) else c.

(** [String.prototype.toLowerCase] *)
Fixpoint toLowerCase (s : string) : string :=
  match s with
  | "" => ""
  | String c r => String (lower_char c) (toLowerCase r)
  end.

(** [s.split(sep)] for a separator of one character: the pieces between
    the separators, in order; a text without separator is its one piece. *)
Fixpoint split (sep : ascii) (s : string) : list string :=
  match s with
  | "" => [""]
  | String c r =>
      if (c =? sep)%char then "" :: split sep r
      else match split sep r with
           | piece :: pieces => String c piece :: pieces
           | [] => [String c ""]
           end
  end.

(** [list.includes(s)] on an array of strings. *)
Definition Array_includes (l : list string) (s : string) : bool :=
  existsb (String.eqb s) l.

(** The own data property [key] of a parsed JSON object; of duplicate keys
    [JSON.parse] keeps the last. *)
Fixpoint own_property (properties : list (string * JsValue)) (key : string)
  : option JsValue :=
  match properties with
  | [] => None
  | (k, v) :: rest =>
      match own_property rest key with
      | Some later => Some later
      | None => if k =? key then Some v else None
      end
  end.

Fixpoint decimal_value (acc : N) (s : string) : N :=
  match s with
  | "" => acc
  | String c r => decimal_value (acc * 10 + N.of_nat (nat_of_ascii c - 48)) r
  end.

(** The array index a property key denotes, if it is a canonical numeric
    string: "0", or decimal digits without a leading zero. *)
Definition array_index (key : string) : option nat :=
  match key with
  | "" => None
  | String c r =>
      if key =? "0" then Some O
      else if in_range 49 57 c && all_chars is_digit r
           then Some (N.to_nat (decimal_value 0 key))
           else None
  end.

(** The message of the TypeError raised by reading property [key] of
    [undefined] or [null]. *)
Definition cannot_read (what key : string) : string :=
  "Cannot read properties of " ++ what ++ " (reading '" ++ key ++ "')".

(** [v[key]], for a key that names no inherited property and is not
    "length": an own property of an object, an element of an array, a
    character of a string, [undefined] otherwise.  Reading a property of
    [undefined] or [null] throws. *)
Definition Get (v : JsValue) (key : string) : Completion JsValue :=
  match v with
  | JUndefined => Throw (TypeError (cannot_read "undefined" key))
  | JNull => Throw (TypeError (cannot_read "null" key))
  | JObject properties =>
      Normal match own_property properties key with
             | Some x => x
             | None => JUndefined
             end
  | JArray elements =>
      Normal match array_index key with
             | Some i => nth i elements JUndefined
             | None => JUndefined
             end
  | JString s =>
      Normal match array_index key with
             | Some i =>
                 match String.get i s with
                 | Some c => JString (String c "")
                 | None => JUndefined
                 end
             | None => JUndefined
             end
  | JBool _ | JNumber _ => Normal JUndefined
  end.

(** [v?.[key]] *)
Definition Get_optional (v : JsValue) (key : string) : Completion JsValue :=
  match v with
  | JUndefined | JNull => Normal JUndefined
  | _ => Get v key
  end.

(** [a || b] *)
Definition logical_or (a b : JsValue) : JsValue :=
  if ToBoolean a then a else b.

End Js.

Import Js.

(** ** Collaborators *)

(** What an awaited promise settles to. *)
Inductive Settlement (A : Type) : Type :=
| Fulfilled (a : A)
| Rejected (e : JsError).
Arguments Fulfilled {A} a.
Arguments Rejected {A} e.

(** A promise on the clock of one attempt: it settles [at_ms] milliseconds
    after the attempt started its calls, or never does. *)
Inductive Promise (A : Type) : Type :=
| Settles (at_ms : N) (s : Settlement A)
| NeverSettles.
Arguments Settles {A} at_ms s.
Arguments NeverSettles {A}.

(** The evaluator client, [openai.chat.completions]. *)
Module OpenAI.

Record ChatRequest : Type := {
  model : string;
  system_content : string;
  user_text : string;
  image_url : string
}.

(** [content] is [None] when the evaluator returns [null]. *)
Record Message : Type := { content : option string }.
Record Choice : Type := { message : Message }.

(** A response without [choices] is read like one with none: in both,
    [response.choices[0].message] throws. *)
Record ChatCompletion : Type := { choices : list Choice }.

End OpenAI.

(** The ledger client, an [ethers.Contract]. *)
Module Ethers.

(** The transaction response of a submitted call: its [hash] and what
    [wait()] settles to once the chain has (or has not) included it. *)
Record Tx : Type := {
  hash : string;
  wait : Settlement unit
}.

End Ethers.

(** What the calls of one attempt meet.  The ledger calls are awaited
    without a deadline, so they are given by what they settle to. *)
Record World : Type := {
  openai_create : OpenAI.ChatRequest -> Promise OpenAI.ChatCompletion;
  contract_verifySuccess : JsValue -> N -> Settlement Ethers.Tx
}.

(** ** Observable events *)

(** [res.status(status).json({ success, message, txHash })]; an absent key
    is [None]. *)
Record Response : Type := {
  status : N;
  success : bool;
  message : option string;
  txHash : option string
}.

(** The [console.log] and [console.error] calls of the handler. *)
Inductive LogLine : Type :=
| LogVerifying (challengeId title : string)
| LogImage (head50 : string)
| LogAiResponse (answer : string)
| LogFailedByAi
| LogApproved
| LogTransactionSent (hash : string)
| LogConfirmed
| LogServerError (message : option string)
| LogApiErrorDetails.

Inductive Event : Type :=
| Log (line : LogLine)
| CreateCompletion (request : OpenAI.ChatRequest)
| SetTimeout (ms : N)
| VerifySuccess (id : JsValue) (gasLimit : N)
| Wait (hash : string)
| Send (r : Response).

Definition Trace : Type := list Event.

(** ** The handler monad: a trace of events and an abrupt completion *)

Definition M (A : Type) : Type := Trace -> Completion A * Trace.

Definition ret {A : Type} (a : A) : M A := fun t => (Normal a, t).

Definition bind {A B : Type} (m : M A) (f : A -> M B) : M B :=
  fun t =>
    match m t with
    | (Normal a, t') => f a t'
    | (Throw e, t') => (Throw e, t')
    end.

Notation "x <- m ;; k" := (bind m (fun x => k))
  (at level 61, m at next level, right associativity).
Notation "m ;; k" := (bind m (fun _ => k))
  (at level 61, right associativity).

Definition emit (ev : Event) : M unit := fun t => (Normal tt, (t ++ [ev])%list).

Definition throw {A : Type} (e : JsError) : M A := fun t => (Throw e, t).

Definition lift {A : Type} (c : Completion A) : M A :=
  match c with
  | Normal a => ret a
  | Throw e => throw e
  end.

(** [await p] for a settled promise. *)
Definition await {A : Type} (s : Settlement A) : M A :=
  match s with
  | Fulfilled a => ret a
  | Rejected e => throw e
  end.

(** [try { body } catch (error) { handler }] *)
Definition try_catch {A : Type} (body : M A) (handler : JsError -> M A) : M A :=
  fun t =>
    match body t with
    | (Throw e, t') => handler e t'
    | r => r
    end.

Definition run {A : Type} (m : M A) : Completion A * Trace := m [].

(** The responses sent, the evaluator requests issued and the ledger
    submissions made along a trace. *)
Fixpoint responses (t : Trace) : list Response :=
  match t with
  | [] => []
  | Send r :: t' => r :: responses t'
  | _ :: t' => responses t'
  end.

Fixpoint evaluator_calls (t : Trace) : list OpenAI.ChatRequest :=
  match t with
  | [] => []
  | CreateCompletion q :: t' => q :: evaluator_calls t'
  | _ :: t' => evaluator_calls t'
  end.

Fixpoint ledger_calls (t : Trace) : list (JsValue * N) :=
  match t with
  | [] => []
  | VerifySuccess id gas :: t' => (id, gas) :: ledger_calls t'
  | _ :: t' => ledger_calls t'
  end.

(** ** The verification endpoint *)

(** The body of a request, destructured:
    [const { challengeId, title, imageUrl } = req.body]. *)
Record Request : Type := {
  challengeId : JsValue;
  title : JsValue;
  imageUrl : JsValue
}.

(** AI request timeout (60 seconds) *)
Definition AI_TIMEOUT_MS : N := 60000.

Definition GAS_LIMIT : N := 200000.

Definition dquote : string := String (ascii_of_nat 34) "".

Definition nl : string := String (ascii_of_nat 10) "".

(** The system message, the instructions to the evaluator: the template
    literal of the source, line by line. *)
Definition SYSTEM_PROMPT : string :=
  "You are the Verification Engine for " ++ dquote ++ "TouchGrass," ++ dquote ++ " a high-stakes accountability protocol where users stake real money on completing health and productivity goals. Your job is to analyze image evidence and determine—with high integrity—if the user completed their specific objective."
  ++ nl
  ++ nl ++ "          ### 1. THE INPUTS"
  ++ nl ++ "          You will receive:"
  ++ nl ++ "          A. The User's Stated Objective (e.g., " ++ dquote ++ "Run 5km" ++ dquote ++ ", " ++ dquote ++ "Read 20 pages" ++ dquote ++ ", " ++ dquote ++ "No Screen Time for 2 hours" ++ dquote ++ ")."
  ++ nl ++ "          B. An Image Proof uploaded by the user."
  ++ nl
  ++ nl ++ "          ### 2. ACCEPTABLE EVIDENCE TYPES"
  ++ nl ++ "          Users may upload a wide variety of proofs. You must be flexible in recognizing valid evidence formats, including but not limited to:"
  ++ nl
  ++ nl ++ "          * **Digital Dashboards:** Screenshots from fitness apps (Strava, Apple Health, Google Fit, Fitbit, Garmin) showing stats like distance, steps, heart rate, or sleep data."
  ++ nl ++ "          * **Physical Evidence:** Photos of the activity in progress or completed (e.g., an open book, a completed painting, a sweaty selfie at the gym, an empty water bottle next to a full one)."
  ++ nl ++ "          * **Hardware Displays:** Photos taken of treadmill screens, Apple Watch/Smartwatch faces, bike computers, or gym machine counters."
  ++ nl ++ "          * **System Interfaces:** Screenshots of " ++ dquote ++ "Screen Time" ++ dquote ++ " settings, " ++ dquote ++ "Focus Mode" ++ dquote ++ " summaries, or " ++ dquote ++ "App Timer" ++ dquote ++ " logs showing usage limits were respected."
  ++ nl ++ "          * **Environment:** Photos of a specific location if the task implies it (e.g., a photo of a hiking trail view for " ++ dquote ++ "Go for a hike" ++ dquote ++ ")."
  ++ nl
  ++ nl ++ "          ### 3. VERIFICATION LOGIC (STRICT)"
  ++ nl ++ "          To mark a challenge as " ++ dquote ++ "VERIFIED" ++ dquote ++ ", the image must contain **verifiable data** or **strong contextual visual proof** that links directly to the specific objective."
  ++ nl
  ++ nl ++ "          * **For Metric-Based Goals (Distance, Time, Count):**"
  ++ nl ++ "              * Look for **Numbers**. If the goal is " ++ dquote ++ "Run 5km" ++ dquote ++ ", a picture of running shoes is FAIL. A picture of a watch showing " ++ dquote ++ "5.01 km" ++ dquote ++ " is PASS."
  ++ nl ++ "              * If the goal is " ++ dquote ++ "Drink 3L water" ++ dquote ++ ", a picture of a water bottle is weak. A picture of a tracking app showing " ++ dquote ++ "3000ml" ++ dquote ++ " or a timestamped photo series is PASS."
  ++ nl ++ "          * **For Binary Goals (Read, Meditate, Cold Plunge):**"
  ++ nl ++ "              * Look for **State**. An open book implies reading. A closed book does not. A picture of a cold plunge tub is weak; a picture of a person *in* the tub or a timer next to it is PASS."
  ++ nl ++ "          * **For Abstinence Goals (No Social Media):**"
  ++ nl ++ "              * Look for **Summary Reports**. A screenshot of a Screen Time dashboard showing " ++ dquote ++ "0m on Instagram" ++ dquote ++ " is PASS."
  ++ nl
  ++ nl ++ "          ### 4. REJECTION CRITERIA (FALSE POSITIVES)"
  ++ nl ++ "          Reject the submission immediately if:"
  ++ nl ++ "          * The image is too blurry to read key numbers/text."
  ++ nl ++ "          * The image is completely unrelated (e.g., a black screen, a random object)."
  ++ nl ++ "          * The data in the image clearly contradicts the goal (e.g., Goal: " ++ dquote ++ "Run 5km" ++ dquote ++ ", Image shows: " ++ dquote ++ "2.1 km" ++ dquote ++ ")."
  ++ nl ++ "          * The image looks like a generic stock photo (watermarked or highly professional studio lighting)."
  ++ nl
  ++ nl ++ "          ### 5. OUTPUT FORMAT"
  ++ nl ++ "          Answer strictly with YES or NO. Do not write any conversational text".

Definition chat_request (title imageUrl : string) : OpenAI.ChatRequest :=
  {| OpenAI.model := "openai/gpt-4o";
     OpenAI.system_content := SYSTEM_PROMPT;
     OpenAI.user_text :=
       "You are a strict accountability judge. Does this image clearly verify that the user completed the task: "
       ++ dquote ++ title ++ dquote ++ "? Answer strictly with YES or NO.";
     OpenAI.image_url := imageUrl |}.

(** The error the timer rejects with:
    [new Error("AI verification timeout")]. *)
Definition timeout_error : JsError :=
  {| error_message := Some "AI verification timeout";
     error_code := None;
     error_response := false |}.

(** [Promise.race([aiPromise, timeoutPromise])]: the timer callback runs
    [AI_TIMEOUT_MS] after it was set and rejects; the evaluator's promise
    wins when it has settled before that. *)
Definition Promise_race (aiPromise : Promise OpenAI.ChatCompletion)
  : Settlement OpenAI.ChatCompletion :=
  match aiPromise with
  | Settles at_ms s =>
      if (at_ms <? AI_TIMEOUT_MS)%N then s else Rejected timeout_error
  | NeverSettles => Rejected timeout_error
  end.

(** [answer.trim().toUpperCase().includes("YES")] *)
Definition isVerified (answer : string) : bool :=
  includes (toUpperCase (trim answer)) "YES".

Definition send (r : Response) : M unit := emit (Send r).

(** [res.status(s).json({ success: false, message: m })] *)
Definition failure (s : N) (m : string) : Response :=
  {| status := s; success := false; message := Some m; txHash := None |}.

(** [res.json({ success: true, txHash: h })] *)
Definition verified (h : string) : Response :=
  {| status := 200; success := true; message := None; txHash := Some h |}.

Definition missing_fields : Response :=
  failure 400 "Missing required fields: challengeId, title, imageUrl".
Definition invalid_challengeId : Response :=
  failure 400 "challengeId must be a valid number".
Definition invalid_title : Response :=
  failure 400 "title must be a string under 500 characters".
Definition invalid_imageUrl : Response :=
  failure 400 "imageUrl must be a valid URL".
Definition evidence_rejected : Response :=
  failure 400 "AI could not verify the objective based on the photo provided.".
Definition evaluator_timeout : Response :=
  failure 504 "AI verification timed out. Please try again.".
Definition already_finalized : Response :=
  failure 400 "Challenge may already be verified or does not exist.".
Definition evaluator_rate_limited : Response :=
  failure 429 "AI service rate limited. Please try again in a few seconds.".
Definition internal_failure : Response :=
  failure 500 "Verification process failed. Please try again.".

Definition message_is (error : JsError) (text : string) : bool :=
  match error_message error with
  | Some m => m =? text
  | None => false
  end.

Definition code_is (error : JsError) (text : string) : bool :=
  match error_code error with
  | Some c => c =? text
  | None => false
  end.

(** [error.message?.includes(text)] *)
Definition message_includes (error : JsError) (text : string) : bool :=
  match error_message error with
  | Some m => includes m text
  | None => false
  end.

(** The [catch (error)] block. *)
Definition catch_block (error : JsError) : M unit :=
  emit (Log (LogServerError (error_message error))) ;;
  if message_is error "AI verification timeout" then
    send evaluator_timeout
  else if code_is error "CALL_EXCEPTION" then
    send already_finalized
  else if message_includes error "rate limit" then
    send evaluator_rate_limited
  else
    (if error_response error then emit (Log LogApiErrorDetails) else ret tt) ;;
    send internal_failure.

(** The [try] block.  Reading [.message] of an absent first choice and
    calling [.trim()] on a [null] content throw a TypeError (the texts are
    those of V8). *)
Definition try_block (w : World) (challengeId : JsValue)
    (title imageUrl : string) : M unit :=
  let request := chat_request title imageUrl in
  emit (CreateCompletion request) ;;
  emit (SetTimeout AI_TIMEOUT_MS) ;;
  response <- await (Promise_race (openai_create w request)) ;;
  choice <- match OpenAI.choices response with
            | c :: _ => ret c
            | [] => throw (TypeError
                "Cannot read properties of undefined (reading 'message')")
            end ;;
  let answer := OpenAI.content (OpenAI.message choice) in
  emit (Log (LogAiResponse
               match answer with Some a => a | None => "null" end)) ;;
  text <- match answer with
          | Some a => ret a
          | None => throw (TypeError
              "Cannot read properties of null (reading 'trim')")
          end ;;
  if negb (isVerified text) then
    emit (Log LogFailedByAi) ;;
    send evidence_rejected
  else
    emit (Log LogApproved) ;;
    emit (VerifySuccess challengeId GAS_LIMIT) ;;
    tx <- await (contract_verifySuccess w challengeId GAS_LIMIT) ;;
    emit (Log (LogTransactionSent (Ethers.hash tx))) ;;
    emit (Wait (Ethers.hash tx)) ;;
    await (Ethers.wait tx) ;;
    emit (Log LogConfirmed) ;;
    send (verified (Ethers.hash tx)).

(** [app.post("/api/verify", verifyLimiter, async (req, res) => ...)].
    An abrupt completion of the whole computation is an exception that
    leaves the handler: its promise rejects and the handler has sent
    nothing. *)
Definition verify_handler (w : World) (body : Request) : M unit :=
  let challengeId := challengeId body in
  let title := title body in
  let imageUrl := imageUrl body in
  if negb (ToBoolean challengeId) || negb (ToBoolean title)
     || negb (ToBoolean imageUrl) then
    send missing_fields
  else
    not_a_number <- lift (isNaN_Number challengeId) ;;
    if not_a_number then
      send invalid_challengeId
    else if negb (typeof title =? "string")
            || (500 <? length (string_value title))%nat then
      send invalid_title
    else if negb (typeof imageUrl =? "string") then
      send invalid_imageUrl
    else
      id_text <- lift (ToString challengeId) ;;
      emit (Log (LogVerifying id_text (string_value title))) ;;
      emit (Log (LogImage (substring 0 50 (string_value imageUrl)))) ;;
      try_catch
        (try_block w challengeId (string_value title) (string_value imageUrl))
        catch_block.

(** ** The verdict rule in the words of the specification *)

(** [t] is [raw] with the white space at both ends removed. *)
Definition trimmed_text (raw t : string) : Prop :=
  exists l r,
    raw = l ++ t ++ r /\
    all_chars is_white_space l = true /\
    all_chars is_white_space r = true /\
    (forall c rest, t = String c rest -> is_white_space c = false) /\
    (forall init c, t = init ++ String c "" -> is_white_space c = false).

(** The token "YES" occurs in [s] at some position, in any mix of cases. *)
Definition contains_YES_any_case (s : string) : Prop :=
  exists pre y e s' post,
    s = pre ++ String y (String e (String s' post)) /\
    (y = "y" \/ y = "Y")%char /\
    (e = "e" \/ e = "E")%char /\
    (s' = "s" \/ s' = "S")%char.

(** A text of ASCII characters only. *)
Definition ascii_text (s : string) : Prop := all_chars is_ascii s = true.

(** The text with its letters [a-z] in capitals. *)
Fixpoint capitals (s : string) : string :=
  match s with
  | "" => ""
  | String c r => String (upper_char c) (capitals r)
  end.


(** ** The failure taxonomy *)

Inductive Category : Type :=
| ValidationFailed
| EvidenceRejected
| EvaluatorTimeout
| EvaluatorRateLimited
| AlreadyFinalized
| InternalFailure.

(** The caller-facing responses of each category. *)
Inductive classified : Response -> Category -> Prop :=
| classified_missing_fields : classified missing_fields ValidationFailed
| classified_invalid_challengeId :
    classified invalid_challengeId ValidationFailed
| classified_invalid_title : classified invalid_title ValidationFailed
| classified_invalid_imageUrl : classified invalid_imageUrl ValidationFailed
| classified_evidence_rejected : classified evidence_rejected EvidenceRejected
| classified_evaluator_timeout : classified evaluator_timeout EvaluatorTimeout
| classified_evaluator_rate_limited :
    classified evaluator_rate_limited EvaluatorRateLimited
| classified_already_finalized : classified already_finalized AlreadyFinalized
| classified_internal_failure : classified internal_failure InternalFailure.

(** The category of a caught error: the conditions of the taxonomy, in the
    order the boundary tests them. *)
Definition classify (error : JsError) : Category :=
  if message_is error "AI verification timeout" then EvaluatorTimeout
  else if code_is error "CALL_EXCEPTION" then AlreadyFinalized
  else if message_includes error "rate limit" then EvaluatorRateLimited
  else InternalFailure.

(** A request that passes the checks made before the pipeline starts, with
    the texts of its title and of its evidence. *)
Definition well_formed (req : Request) (t u : string) : Prop :=
  ToBoolean (challengeId req) = true /\
  isNaN_Number (challengeId req) = Normal false /\
  title req = JString t /\ t <> "" /\ (length t <= 500)%nat /\
  imageUrl req = JString u /\ u <> "".

(** The answer the handler reads off the evaluator, when the evaluator's
    promise wins the race and carries a first choice. *)
Definition evaluator_answer (w : World) (t u : string) (answer : option string)
  : Prop :=
  exists response choice rest,
    Promise_race (openai_create w (chat_request t u)) = Fulfilled response /\
    OpenAI.choices response = choice :: rest /\
    OpenAI.content (OpenAI.message choice) = answer.

(** What the [catch] block adds to the trace. *)
Definition catch_trace (error : JsError) : Trace :=
  snd (run (catch_block error)).

(** ** Attempts and runs, by the way they end *)

Definition attempt (w : World) (id : JsValue) (t u : string) : M unit :=
  try_catch (try_block w id t u) catch_block.

Definition no_first_choice : JsError :=
  TypeError "Cannot read properties of undefined (reading 'message')".

Definition no_content : JsError :=
  TypeError "Cannot read properties of null (reading 'trim')".

(** The events of an attempt, by the way it ends. *)
Inductive attempt_trace (w : World) (id : JsValue) (t u : string)
  : Trace -> Prop :=
| race_lost (e : JsError) :
    Promise_race (openai_create w (chat_request t u)) = Rejected e ->
    attempt_trace w id t u
      ([CreateCompletion (chat_request t u); SetTimeout AI_TIMEOUT_MS]
       ++ catch_trace e)%list
| choice_missing (response : OpenAI.ChatCompletion) :
    Promise_race (openai_create w (chat_request t u)) = Fulfilled response ->
    OpenAI.choices response = [] ->
    attempt_trace w id t u
      ([CreateCompletion (chat_request t u); SetTimeout AI_TIMEOUT_MS]
       ++ catch_trace no_first_choice)%list
| content_missing :
    evaluator_answer w t u None ->
    attempt_trace w id t u
      ([CreateCompletion (chat_request t u); SetTimeout AI_TIMEOUT_MS;
        Log (LogAiResponse "null")]
       ++ catch_trace no_content)%list
| verdict_negative (a : string) :
    evaluator_answer w t u (Some a) ->
    isVerified a = false ->
    attempt_trace w id t u
      [CreateCompletion (chat_request t u); SetTimeout AI_TIMEOUT_MS;
       Log (LogAiResponse a); Log LogFailedByAi; Send evidence_rejected]
| submission_failed (a : string) (e : JsError) :
    evaluator_answer w t u (Some a) ->
    isVerified a = true ->
    contract_verifySuccess w id GAS_LIMIT = Rejected e ->
    attempt_trace w id t u
      ([CreateCompletion (chat_request t u); SetTimeout AI_TIMEOUT_MS;
        Log (LogAiResponse a); Log LogApproved; VerifySuccess id GAS_LIMIT]
       ++ catch_trace e)%list
| inclusion_failed (a : string) (tx : Ethers.Tx) (e : JsError) :
    evaluator_answer w t u (Some a) ->
    isVerified a = true ->
    contract_verifySuccess w id GAS_LIMIT = Fulfilled tx ->
    Ethers.wait tx = Rejected e ->
    attempt_trace w id t u
      ([CreateCompletion (chat_request t u); SetTimeout AI_TIMEOUT_MS;
        Log (LogAiResponse a); Log LogApproved; VerifySuccess id GAS_LIMIT;
        Log (LogTransactionSent (Ethers.hash tx)); Wait (Ethers.hash tx)]
       ++ catch_trace e)%list
| included (a : string) (tx : Ethers.Tx) :
    evaluator_answer w t u (Some a) ->
    isVerified a = true ->
    contract_verifySuccess w id GAS_LIMIT = Fulfilled tx ->
    Ethers.wait tx = Fulfilled tt ->
    attempt_trace w id t u
      [CreateCompletion (chat_request t u); SetTimeout AI_TIMEOUT_MS;
       Log (LogAiResponse a); Log LogApproved; VerifySuccess id GAS_LIMIT;
       Log (LogTransactionSent (Ethers.hash tx)); Wait (Ethers.hash tx);
       Log LogConfirmed; Send (verified (Ethers.hash tx))].

(** All three fields are present (truthy). *)
Definition all_present (req : Request) : bool :=
  ToBoolean (challengeId req) && ToBoolean (title req)
  && ToBoolean (imageUrl req).

Inductive handler_run (w : World) (req : Request)
  : Completion unit * Trace -> Prop :=
| run_missing_fields :
    all_present req = false ->
    handler_run w req (Normal tt, [Send missing_fields])
| run_escapes (e : JsError) :
    all_present req = true ->
    isNaN_Number (challengeId req) = Throw e ->
    handler_run w req (Throw e, [])
| run_invalid_challengeId :
    all_present req = true ->
    isNaN_Number (challengeId req) = Normal true ->
    handler_run w req (Normal tt, [Send invalid_challengeId])
| run_invalid_title :
    all_present req = true ->
    isNaN_Number (challengeId req) = Normal false ->
    (forall s, title req = JString s -> (500 < length s)%nat) ->
    handler_run w req (Normal tt, [Send invalid_title])
| run_invalid_imageUrl (t : string) :
    all_present req = true ->
    isNaN_Number (challengeId req) = Normal false ->
    title req = JString t -> (length t <= 500)%nat ->
    (forall s, imageUrl req <> JString s) ->
    handler_run w req (Normal tt, [Send invalid_imageUrl])
| run_attempt (t u id_text : string) (tr : Trace) :
    well_formed req t u ->
    ToString (challengeId req) = Normal id_text ->
    attempt_trace w (challengeId req) t u tr ->
    handler_run w req
      (Normal tt,
       ([Log (LogVerifying id_text t); Log (LogImage (substring 0 50 u))]
        ++ tr)%list).

(** The ledger rejects the commit with [e]: at submission, or while the
    inclusion of the submitted transaction is awaited. *)
Definition ledger_rejects (w : World) (id : JsValue) (e : JsError) : Prop :=
  contract_verifySuccess w id GAS_LIMIT = Rejected e \/
  exists tx, contract_verifySuccess w id GAS_LIMIT = Fulfilled tx /\
             Ethers.wait tx = Rejected e.

(** ** Scenarios *)

(** Concrete collaborators and requests, for the instances below. *)

Definition completion_with (answer : option string) : OpenAI.ChatCompletion :=
  {| OpenAI.choices :=
       [ {| OpenAI.message := {| OpenAI.content := answer |} |} ] |}.

(** The evaluator answers [answer] after [at_ms] milliseconds. *)
Definition answers (at_ms : N) (answer : option string)
  : Promise OpenAI.ChatCompletion :=
  Settles at_ms (Fulfilled (completion_with answer)).

Definition tx_included : Ethers.Tx :=
  {| Ethers.hash := "0x1234567890abcdef"; Ethers.wait := Fulfilled tt |}.

Definition world (ai : Promise OpenAI.ChatCompletion)
    (ledger : Settlement Ethers.Tx) : World :=
  {| openai_create := fun _ => ai;
     contract_verifySuccess := fun _ _ => ledger |}.

(** The request of the API reference. *)
Definition request_42 : Request :=
  {| challengeId := JString "42";
     title := JString "Run 5km";
     imageUrl := JString "data:image/jpeg;base64,/9j/4AAQ" |}.

(** An error of the ledger client that carries the revert signal. *)
Definition reverted (text : string) : JsError :=
  {| error_message := Some text;
     error_code := Some "CALL_EXCEPTION";
     error_response := false |}.

(** [{ "challengeId": { "toString": 1 }, ... }]: the identifier is an
    object whose own "toString" is not callable. *)
Definition shadowed_toString : JsValue :=
  JObject [("toString", JNumber (Finite false 1 1))].

Definition request_shadowed_toString : Request :=
  {| challengeId := shadowed_toString;
     title := JString "Run 5km";
     imageUrl := JString "data:image/jpeg;base64,/9j/4AAQ" |}.

(** A title of 501 characters. *)
Definition title_501 : string := zeros 501.

Definition request_shadowed_long_title : Request :=
  {| challengeId := shadowed_toString;
     title := JString title_501;
     imageUrl := JString "data:image/jpeg;base64,/9j/4AAQ" |}.

(** [{ "challengeId": 0, "title": "Run 5km", "imageUrl": ... }] *)
Definition request_zero : Request :=
  {| challengeId := JNumber (Zero false);
     title := JString "Run 5km";
     imageUrl := JString "data:image/jpeg;base64,/9j/4AAQ" |}.

Definition request_zero_text : Request :=
  {| challengeId := JString "0";
     title := JString "Run 5km";
     imageUrl := JString "data:image/jpeg;base64,/9j/4AAQ" |}.

(** ** The identity-lookup proxy: [GET /api/farcaster/:address] *)

Module Farcaster.

(** What [fetch] resolves with, as the handler reads it: the status and
    what [response.json()] settles to.  [ok] is true for a status in the
    range 200-299. *)
Record FetchResponse : Type := {
  status : N;
  json : Settlement JsValue
}.

Definition ok (response : FetchResponse) : bool :=
  (200 <=? status response)%N && (status response <=? 299)%N.

(** [process.env.NEYNAR_API_KEY] at the time of the request, and what
    [fetch(url, { headers: { api_key } })] settles to. *)
Record World : Type := {
  NEYNAR_API_KEY : option string;
  fetch : string -> string -> Settlement FetchResponse
}.

(** [res.status(code).json({ success, message, name, avatar })]; a key
    that is absent or [undefined] is [None] or [JUndefined]. *)
Record Reply : Type := {
  code : N;
  success : bool;
  message : option string;
  name : JsValue;
  avatar : JsValue
}.

Inductive Event : Type :=
| Fetch (url api_key : string)
| Warn (upstream_status : N)
| LogError (message : option string)
| Send (r : Reply).

Definition refusal (c : N) (m : string) : Reply :=
  {| code := c; success := false; message := Some m;
     name := JUndefined; avatar := JUndefined |}.

Definition invalid_address : Reply :=
  refusal 400 "Invalid Ethereum address format".
Definition unavailable : Reply :=
  refusal 503 "Farcaster lookup not available".
Definition lookup_failed (c : N) : Reply :=
  refusal c "Farcaster lookup failed".
Definition no_profile : Reply :=
  refusal 200 "No Farcaster profile found".

Definition profile (display avatar_url : JsValue) : Reply :=
  {| code := 200; success := true; message := None;
     name := display; avatar := avatar_url |}.

(** [/^0x[a-fA-F0-9]{40}$/.test(address)] *)
Definition is_address (address : string) : bool :=
  match address with
  | String "0" (String "x" digits) =>
      (length digits =? 40)%nat && all_chars is_hex_digit digits
  | _ => false
  end.

Definition lookup_url (address : string) : string :=
  "https://api.neynar.com/v2/farcaster/user/bulk-by-address?addresses="
  ++ address.

(** The statements of the [try] block after the upstream body was parsed:
    [data[address.toLowerCase()]?.[0]] and the reply built from it. *)
Definition reply_from (data : JsValue) (address : string) : Completion Reply :=
  match Get data (toLowerCase address) with
  | Throw e => Throw e
  | Normal entry =>
      match Get_optional entry "0" with
      | Throw e => Throw e
      | Normal user =>
          if ToBoolean user then
            match Get user "display_name", Get user "username",
                  Get user "pfp_url" with
            | Normal display, Normal username, Normal picture =>
                Normal (profile (logical_or display username) picture)
            | Throw e, _, _ => Throw e
            | _, Throw e, _ => Throw e
            | _, _, Throw e => Throw e
            end
          else Normal no_profile
      end
  end.

(** The [try] block: its completion and the events it leaves. *)
Definition try_block (w : World) (key address : string)
  : Completion unit * list Event :=
  let request := Fetch (lookup_url address) key in
  match fetch w (lookup_url address) key with
  | Rejected e => (Throw e, [request])
  | Fulfilled response =>
      if negb (ok response) then
        (Normal tt,
         [request; Warn (status response);
          Send (lookup_failed (status response))])
      else
        match json response with
        | Rejected e => (Throw e, [request])
        | Fulfilled data =>
            match reply_from data address with
            | Throw e => (Throw e, [request])
            | Normal r => (Normal tt, [request; Send r])
            end
        end
  end.

(** [app.get("/api/farcaster/:address", farcasterLimiter, async ...)] *)
Definition handler (w : World) (address : string)
  : Completion unit * list Event :=
  if negb (ToBoolean (JString address)) || negb (is_address address) then
    (Normal tt, [Send invalid_address])
  else
    match NEYNAR_API_KEY w with
    | None => (Normal tt, [Send unavailable])
    | Some key =>
        if negb (ToBoolean (JString key)) then
          (Normal tt, [Send unavailable])
        else
          match try_block w key address with
          | (Throw error, events) =>
              (Normal tt,
               (events ++ [LogError (error_message error);
                           Send (lookup_failed 500)])%list)
          | completed => completed
          end
    end.

Fixpoint replies (events : list Event) : list Reply :=
  match events with
  | [] => []
  | Send r :: rest => r :: replies rest
  | _ :: rest => replies rest
  end.

Fixpoint fetches (events : list Event) : list (string * string) :=
  match events with
  | [] => []
  | Fetch url key :: rest => (url, key) :: fetches rest
  | _ :: rest => fetches rest
  end.

(** The texts a reply can carry. *)
Definition fixed_messages : list string :=
  ["Invalid Ethereum address format"; "Farcaster lookup not available";
   "Farcaster lookup failed"; "No Farcaster profile found"].

End Farcaster.

(** ** Cross-origin allowlist *)

Module Cors.

(** [process.env.ALLOWED_ORIGINS?.split(",").map((o) => o.trim())
     || ["http://localhost:5173"]]: an array is truthy whatever it holds,
    so the default stands only for an unset variable. *)
Definition allowedOrigins (ALLOWED_ORIGINS : option string) : list string :=
  match ALLOWED_ORIGINS with
  | Some value => map trim (split "," value)
  | None => ["http://localhost:5173"]
  end.

(** The [origin] callback of the [cors] options: [true] stands for
    [callback(null, true)], [false] for
    [callback(new Error("Not allowed by CORS"))].  [None] is a request
    without [Origin] header. *)
Definition origin_allowed (allowed : list string) (origin : option string)
  : bool :=
  match origin with
  | None => true
  | Some o => negb (ToBoolean (JString o)) || Array_includes allowed o
  end.

Definition has_comma (s : string) : bool :=
  negb (all_chars (fun c => negb (c =? ",")%char) s).

End Cors.

(** ** Start-up *)

Module Startup.

Definition requiredEnvVars : list string :=
  ["VERIFIER_PRIVATE_KEY"; "CONTRACT_ADDRESS"; "OPENROUTER_API_KEY"].

(** [!process.env[envVar]] *)
Definition unset (env : string -> option string) (envVar : string) : bool :=
  match env envVar with
  | Some value => negb (ToBoolean (JString value))
  | None => true
  end.

(** The loop over the required variables: the variable at which the
    process logs the fatal error and exits with status 1, if any. *)
Fixpoint fatal (env : string -> option string) (vars : list string)
  : option string :=
  match vars with
  | [] => None
  | envVar :: rest => if unset env envVar then Some envVar else fatal env rest
  end.

Definition validate_environment (env : string -> option string)
  : option string :=
  fatal env requiredEnvVars.

End Startup.

(** The ways the [try] block of the proxy ends. *)
Inductive lookup_outcome (w : Farcaster.World) (key address : string)
  : Completion unit * list Farcaster.Event -> Prop :=
| fetch_rejected (e : JsError) :
    Farcaster.fetch w (Farcaster.lookup_url address) key = Rejected e ->
    lookup_outcome w key address
      (Throw e, [Farcaster.Fetch (Farcaster.lookup_url address) key])
| upstream_refused (response : Farcaster.FetchResponse) :
    Farcaster.fetch w (Farcaster.lookup_url address) key
      = Fulfilled response ->
    Farcaster.ok response = false ->
    lookup_outcome w key address
      (Normal tt,
       [Farcaster.Fetch (Farcaster.lookup_url address) key;
        Farcaster.Warn (Farcaster.status response);
        Farcaster.Send (Farcaster.lookup_failed (Farcaster.status response))])
| body_unreadable (response : Farcaster.FetchResponse) (e : JsError) :
    Farcaster.fetch w (Farcaster.lookup_url address) key
      = Fulfilled response ->
    Farcaster.ok response = true ->
    Farcaster.json response = Rejected e ->
    lookup_outcome w key address
      (Throw e, [Farcaster.Fetch (Farcaster.lookup_url address) key])
| body_unexpected (response : Farcaster.FetchResponse) (data : JsValue)
    (e : JsError) :
    Farcaster.fetch w (Farcaster.lookup_url address) key
      = Fulfilled response ->
    Farcaster.ok response = true ->
    Farcaster.json response = Fulfilled data ->
    Farcaster.reply_from data address = Throw e ->
    lookup_outcome w key address
      (Throw e, [Farcaster.Fetch (Farcaster.lookup_url address) key])
| body_read (response : Farcaster.FetchResponse) (data : JsValue)
    (r : Farcaster.Reply) :
    Farcaster.fetch w (Farcaster.lookup_url address) key
      = Fulfilled response ->
    Farcaster.ok response = true ->
    Farcaster.json response = Fulfilled data ->
    Farcaster.reply_from data address = Normal r ->
    lookup_outcome w key address
      (Normal tt,
       [Farcaster.Fetch (Farcaster.lookup_url address) key;
        Farcaster.Send r]).

(** * Properties *)

(** ** Strings *)

Section StringFacts.

Local Arguments Ascii.eqb : simpl never.
Local Arguments upper_char : simpl never.

Ltac by_cases_on_char c :=
  destruct c as [[] [] [] [] [] [] [] []]; vm_compute;
  split; intros H;
  try discriminate H; try reflexivity;
  try (left; reflexivity); try (right; reflexivity);
  try (destruct H as [H | H]; discriminate H).

Lemma upper_char_Y (c : ascii) :
  upper_char c = "Y"%char <-> (c = "y" \/ c = "Y")%char.
Proof. by_cases_on_char c. Qed.

Lemma upper_char_E (c : ascii) :
  upper_char c = "E"%char <-> (c = "e" \/ c = "E")%char.
Proof. by_cases_on_char c. Qed.

Lemma upper_char_S (c : ascii) :
  upper_char c = "S"%char <-> (c = "s" \/ c = "S")%char.
Proof. by_cases_on_char c. Qed.

Lemma starts_with_YES_upper (s : string) :
  starts_with (capitals s) "YES" = true <->
  exists y e s' post,
    s = String y (String e (String s' post)) /\
    (y = "y" \/ y = "Y")%char /\ (e = "e" \/ e = "E")%char /\
    (s' = "s" \/ s' = "S")%char.
Proof.
  split.
  - destruct s as [| y [| e [| s' post]]]; simpl;
      rewrite ?andb_false_r; try discriminate.
    rewrite !andb_true_iff, !Ascii.eqb_eq.
    intros (Hy & He & Hs & _). exists y, e, s', post.
    repeat split; try reflexivity;
      [apply upper_char_Y | apply upper_char_E | apply upper_char_S];
      symmetry; assumption.
  - intros (y & e & s' & post & -> & Hy & He & Hs).
    apply upper_char_Y in Hy. apply upper_char_E in He.
    apply upper_char_S in Hs. simpl. rewrite Hy, He, Hs, !Ascii.eqb_refl.
    reflexivity.
Qed.

Lemma includes_YES_upper (s : string) :
  includes (capitals s) "YES" = true <-> contains_YES_any_case s.
Proof.
  induction s as [| c r IH].
  - split; [discriminate |].
    intros (pre & y & e & s' & post & H & _). destruct pre; discriminate H.
  - change (includes (capitals (String c r)) "YES")
      with (starts_with (capitals (String c r)) "YES"
            || includes (capitals r) "YES").
    rewrite orb_true_iff, starts_with_YES_upper, IH. split.
    + intros [(y & e & s' & post & H & Hc) | (pre & y & e & s' & post & H & Hc)].
      * exists "", y, e, s', post. split; [exact H | exact Hc].
      * exists (String c pre), y, e, s', post. split; [| exact Hc].
        simpl. rewrite H. reflexivity.
    + intros (pre & y & e & s' & post & H & Hc). destruct pre as [| c' pre].
      * left. exists y, e, s', post. split; [exact H | exact Hc].
      * right. simpl in H. injection H as _ H.
        exists pre, y, e, s', post. split; [exact H | exact Hc].
Qed.

Lemma toUpperCase_ascii (s : string) :
  ascii_text s -> toUpperCase s = capitals s.
Proof.
  unfold ascii_text. induction s as [| c r IH]; [reflexivity |].
  intros H. simpl in H. apply andb_true_iff in H as [Hc Hr].
  simpl. rewrite Hc, (IH Hr). reflexivity.
Qed.

Lemma all_chars_app (p : ascii -> bool) (a b : string) :
  all_chars p (a ++ b) = all_chars p a && all_chars p b.
Proof.
  induction a as [| c a IH]; simpl; [reflexivity |].
  rewrite IH, andb_assoc. reflexivity.
Qed.

Lemma trimStart_spec (s : string) :
  exists l,
    s = l ++ trimStart s /\
    all_chars is_white_space l = true /\
    (forall c rest, trimStart s = String c rest -> is_white_space c = false).
Proof.
  induction s as [| c r (l & Hr & Hl & Hhead)]; simpl.
  - exists "". repeat split. intros c rest H. discriminate H.
  - destruct (is_white_space c) eqn:Hc.
    + exists (String c l). simpl. rewrite <- Hr, Hc, Hl. repeat split.
      exact Hhead.
    + exists "". repeat split. intros c' rest H. injection H as <- _.
      exact Hc.
Qed.

Lemma last_char_inv (init : string) (a c : ascii) (x : string) :
  String a x = init ++ String c "" ->
  (x = "" /\ init = "" /\ a = c) \/
  (exists init', init = String a init' /\ x = init' ++ String c "").
Proof.
  destruct init as [| b init']; simpl; intros H; injection H as -> ->.
  - left. repeat split.
  - right. exists init'. split; reflexivity.
Qed.

Lemma app_last_not_empty (init : string) (c : ascii) :
  init ++ String c "" <> "".
Proof. destruct init; discriminate. Qed.

Lemma trimEnd_spec (x : string) :
  exists r,
    x = trimEnd x ++ r /\
    all_chars is_white_space r = true /\
    (forall init c, trimEnd x = init ++ String c "" ->
                    is_white_space c = false).
Proof.
  induction x as [| a x (r & Hx & Hr & Hlast)]; simpl.
  - exists "". repeat split. intros init c H. symmetry in H.
    exfalso. exact (app_last_not_empty _ _ H).
  - destruct (trimEnd x) as [| d y] eqn:Ht.
    + simpl in Hx. subst x. destruct (is_white_space a) eqn:Ha.
      * exists (String a r). simpl. rewrite Ha, Hr.
        repeat split. intros init c H. symmetry in H.
        exfalso. exact (app_last_not_empty _ _ H).
      * exists r. repeat split; [exact Hr |].
        intros init c H.
        destruct (last_char_inv _ _ _ _ H) as [(_ & _ & <-) | (i & _ & Hi)];
          [exact Ha |].
        symmetry in Hi. exfalso. exact (app_last_not_empty _ _ Hi).
    + exists r. simpl. simpl in Hx. rewrite <- Hx. repeat split; [exact Hr |].
      intros init c H.
      destruct (last_char_inv _ _ _ _ H) as [(Hy & _) | (i & _ & Hi)];
        [discriminate Hy |].
      exact (Hlast _ _ Hi).
Qed.

Lemma trimEnd_head (c : ascii) (rest : string) :
  is_white_space c = false ->
  exists rest', trimEnd (String c rest) = String c rest'.
Proof.
  intros Hc. simpl. destruct (trimEnd rest) as [| d y].
  - rewrite Hc. exists "". reflexivity.
  - exists (String d y). reflexivity.
Qed.

Lemma trimEnd_white (r : string) :
  all_chars is_white_space r = true -> trimEnd r = "".
Proof.
  induction r as [| c r IH]; simpl; [reflexivity |].
  intros H. apply andb_true_iff in H as [Hc Hr].
  rewrite (IH Hr), Hc. reflexivity.
Qed.

Lemma trimStart_white_app (l x : string) :
  all_chars is_white_space l = true -> trimStart (l ++ x) = trimStart x.
Proof.
  induction l as [| c l IH]; simpl; [reflexivity |].
  intros H. apply andb_true_iff in H as [Hc Hl].
  rewrite Hc. exact (IH Hl).
Qed.

Lemma trimEnd_app_white (x r : string) :
  all_chars is_white_space r = true -> trimEnd (x ++ r) = trimEnd x.
Proof.
  intros Hr. induction x as [| c x IH]; simpl.
  - exact (trimEnd_white r Hr).
  - rewrite IH. reflexivity.
Qed.

Lemma trimEnd_fixed (t : string) :
  (forall init c, t = init ++ String c "" -> is_white_space c = false) ->
  trimEnd t = t.
Proof.
  induction t as [| a t IH]; [reflexivity |].
  intros Hlast. simpl. destruct t as [| b t'].
  - simpl. rewrite (Hlast "" a eq_refl). reflexivity.
  - rewrite IH; [reflexivity |].
    intros init c H. apply (Hlast (String a init) c). simpl. rewrite H.
    reflexivity.
Qed.

(** [trim] computes the trimmed text, and there is no other. *)
Lemma trim_trimmed (raw : string) : trimmed_text raw (trim raw).
Proof.
  unfold trim.
  destruct (trimStart_spec raw) as (l & Hraw & Hl & Hhead).
  destruct (trimEnd_spec (trimStart raw)) as (r & Hmid & Hr & Hlast).
  exists l, r. repeat split; try assumption.
  - rewrite <- Hmid. exact Hraw.
  - intros c rest H. destruct (trimStart raw) as [| a x] eqn:Hs.
    + discriminate H.
    + pose proof (Hhead a x eq_refl) as Ha.
      destruct (trimEnd_head a x Ha) as (rest' & Hrest).
      rewrite Hrest in H. injection H as <- _. exact Ha.
Qed.

Lemma trimmed_unique (raw t : string) :
  trimmed_text raw t -> t = trim raw.
Proof.
  intros (l & r & -> & Hl & Hr & Hhead & Hlast). unfold trim.
  rewrite (trimStart_white_app _ _ Hl).
  destruct t as [| a x].
  - simpl. clear Hhead Hlast. induction r as [| c r IH]; [reflexivity |].
    simpl in *. apply andb_true_iff in Hr as [Hc Hr]. rewrite Hc.
    exact (IH Hr).
  - simpl. rewrite (Hhead a x eq_refl).
    change (String a (x ++ r)) with (String a x ++ r).
    rewrite (trimEnd_app_white _ _ Hr). symmetry. exact (trimEnd_fixed _ Hlast).
Qed.

(** The rule of the code and the rule of the data model agree. *)
Lemma trim_keeps_all (p : ascii -> bool) (s : string) :
  all_chars p s = true -> all_chars p (trim s) = true.
Proof.
  destruct (trim_trimmed s) as (l & r & Hs & _).
  intros H. rewrite Hs, !all_chars_app in H.
  apply andb_true_iff in H as [_ H]. apply andb_true_iff in H as [H _].
  exact H.
Qed.



End StringFacts.

(** ** Conversions *)

Lemma ToPrimitiveString_hint (v : JsValue) :
  ToPrimitiveString HintNumber v = ToPrimitiveString HintString v.
Proof.
  destruct v as [| | b | x | s | elements | properties]; try reflexivity.
  simpl. unfold OrdinaryToPrimitive, GetMethod.
  destruct (has_own (map fst properties) "valueOf"),
           (has_own (map fst properties) "toString"); reflexivity.
Qed.

(** A value whose numeric conversion completes also converts to text. *)
Lemma ToString_when_Number_completes (v : JsValue) (b : bool) :
  isNaN_Number v = Normal b -> exists s, ToString v = Normal s.
Proof.
  unfold ToString. rewrite <- ToPrimitiveString_hint.
  destruct v as [| | c | x | s | elements | properties];
    try (intros _; eexists; reflexivity);
    unfold isNaN_Number;
    (destruct (ToPrimitiveString HintNumber _) as [s | e];
     [intros _; exists s; reflexivity | discriminate]).
Qed.

Lemma typeof_string (v : JsValue) :
  (typeof v =? "string") = true -> exists s, v = JString s.
Proof.
  destruct v; try discriminate. intros _. eexists. reflexivity.
Qed.

Lemma truthy_string (s : string) :
  ToBoolean (JString s) = true <-> s <> "".
Proof.
  destruct s; simpl; split; congruence.
Qed.

(** ** Traces *)

Local Open Scope list_scope.

Lemma responses_app (a b : Trace) :
  responses (a ++ b)%list = (responses a ++ responses b)%list.
Proof.
  induction a as [| ev a IH]; [reflexivity |].
  destruct ev; simpl; rewrite IH; reflexivity.
Qed.

Lemma ledger_calls_app (a b : Trace) :
  ledger_calls (a ++ b)%list = (ledger_calls a ++ ledger_calls b)%list.
Proof.
  induction a as [| ev a IH]; [reflexivity |].
  destruct ev; simpl; rewrite IH; reflexivity.
Qed.

Lemma evaluator_calls_app (a b : Trace) :
  evaluator_calls (a ++ b)%list = (evaluator_calls a ++ evaluator_calls b)%list.
Proof.
  induction a as [| ev a IH]; [reflexivity |].
  destruct ev; simpl; rewrite IH; reflexivity.
Qed.


(** ** The boundary: the [catch] block *)

Ltac unfold_monad :=
  unfold run, try_catch, bind, send, emit, await, lift, throw, ret in *.

Lemma catch_block_frame (error : JsError) (t : Trace) :
  catch_block error t = (Normal tt, (t ++ catch_trace error)%list).
Proof.
  unfold catch_trace, catch_block. unfold_monad.
  destruct (message_is error _); [| destruct (code_is error _);
    [| destruct (message_includes error _); [| destruct (error_response error)]]];
    simpl; rewrite <- ?app_assoc; reflexivity.
Qed.

(** The [catch] block answers once, with the response of the error's
    category, and calls no collaborator. *)
Lemma catch_trace_response (error : JsError) :
  exists r,
    responses (catch_trace error) = [r] /\
    classified r (classify error) /\
    ledger_calls (catch_trace error) = [] /\
    evaluator_calls (catch_trace error) = [].
Proof.
  unfold catch_trace, catch_block, classify. unfold_monad.
  destruct (message_is error _); [| destruct (code_is error _);
    [| destruct (message_includes error _); [| destruct (error_response error)]]];
    simpl; eexists; (split; [reflexivity |]); (split; [constructor |]);
    split; reflexivity.
Qed.

(** ** One attempt: the [try] block under its [catch] *)

(** Every attempt completes normally along one of these traces. *)
Lemma attempt_runs (w : World) (id : JsValue) (t u : string) (t0 : Trace) :
  exists tr,
    attempt w id t u t0 = (Normal tt, (t0 ++ tr)%list) /\
    attempt_trace w id t u tr.
Proof.
  unfold attempt, try_block. unfold_monad.
  destruct (Promise_race (openai_create w (chat_request t u)))
    as [response | e] eqn:Hrace.
  2: { eexists. split; [| exact (race_lost w id t u e Hrace)].
       rewrite catch_block_frame, <- !app_assoc. reflexivity. }
  destruct (OpenAI.choices response) as [| choice rest] eqn:Hchoices.
  { eexists. split; [| exact (choice_missing w id t u response Hrace Hchoices)].
    rewrite catch_block_frame, <- !app_assoc. reflexivity. }
  destruct (OpenAI.content (OpenAI.message choice)) as [a |] eqn:Hcontent.
  2: { assert (evaluator_answer w t u None) as Hanswer
         by (exists response, choice, rest; repeat split; assumption).
       eexists. split; [| exact (content_missing w id t u Hanswer)].
       rewrite catch_block_frame, <- !app_assoc. reflexivity. }
  assert (evaluator_answer w t u (Some a)) as Hanswer
    by (exists response, choice, rest; repeat split; assumption).
  destruct (isVerified a) eqn:Hverdict; simpl.
  2: { eexists. split; [| exact (verdict_negative w id t u a Hanswer Hverdict)].
       rewrite <- !app_assoc. reflexivity. }
  destruct (contract_verifySuccess w id GAS_LIMIT) as [tx | e] eqn:Hsubmit.
  2: { eexists.
       split; [| exact (submission_failed w id t u a e Hanswer Hverdict Hsubmit)].
       rewrite catch_block_frame, <- !app_assoc. reflexivity. }
  destruct (Ethers.wait tx) as [[] | e] eqn:Hwait.
  - eexists.
    split; [| exact (included w id t u a tx Hanswer Hverdict Hsubmit Hwait)].
    rewrite <- !app_assoc. reflexivity.
  - eexists.
    split; [| exact (inclusion_failed w id t u a tx e
                       Hanswer Hverdict Hsubmit Hwait)].
    rewrite catch_block_frame, <- !app_assoc. reflexivity.
Qed.

(** ** The handler, by the way a request is met *)

Lemma handler_runs (w : World) (req : Request) :
  handler_run w req (run (verify_handler w req)).
Proof.
  unfold run, verify_handler.
  destruct (all_present req) eqn:Hpresent.
  2: { replace (negb (ToBoolean (challengeId req))
                || negb (ToBoolean (title req))
                || negb (ToBoolean (imageUrl req))) with true.
       - apply run_missing_fields. exact Hpresent.
       - unfold all_present in Hpresent.
         destruct (ToBoolean (challengeId req)), (ToBoolean (title req)),
                  (ToBoolean (imageUrl req)); try reflexivity.
         discriminate Hpresent. }
  pose proof Hpresent as Htruthy. unfold all_present in Htruthy.
  apply andb_true_iff in Htruthy as [Htruthy Himage].
  apply andb_true_iff in Htruthy as [Hid Htitle].
  rewrite Hid, Htitle, Himage. cbn [negb orb].
  unfold bind at 1.
  destruct (isNaN_Number (challengeId req)) as [[] | e] eqn:Hnan;
    cbn [lift ret throw].
  - apply run_invalid_challengeId; assumption.
  - destruct (typeof (title req) =? "string") eqn:Htype; cbn [negb orb].
    2: { apply run_invalid_title; try assumption.
         intros s Hs. rewrite Hs in Htype. discriminate Htype. }
    destruct (typeof_string _ Htype) as (t & Ht). rewrite Ht in Htitle |- *.
    cbn [string_value].
    destruct (Nat.ltb_spec 500 (length t)) as [Hlong | Hshort].
    { apply run_invalid_title; try assumption.
      intros s Hs. rewrite Ht in Hs. injection Hs as <-. exact Hlong. }
    destruct (typeof (imageUrl req) =? "string") eqn:Htype'; cbn [negb].
    2: { apply (run_invalid_imageUrl w req t); try assumption.
         intros s Hs. rewrite Hs in Htype'. discriminate Htype'. }
    destruct (typeof_string _ Htype') as (u & Hu). rewrite Hu in Himage |- *.
    cbn [string_value].
    destruct (ToString_when_Number_completes _ _ Hnan) as (id_text & Hidt).
    unfold bind at 1. rewrite Hidt. cbn [lift ret].
    unfold bind at 1. unfold emit at 1. unfold bind at 1. unfold emit at 1.
    cbn [app].
    fold (attempt w (challengeId req) t u).
    destruct (attempt_runs w (challengeId req) t u
                [Log (LogVerifying id_text t);
                 Log (LogImage (substring 0 50 u))]) as (tr & -> & Htr).
    apply (run_attempt w req t u id_text tr); try assumption.
    repeat split; try assumption.
    + apply truthy_string. exact Htitle.
    + apply truthy_string. exact Himage.
  - apply run_escapes; assumption.
Qed.

Lemma well_formed_present (req : Request) (t u : string) :
  well_formed req t u -> all_present req = true.
Proof.
  intros (Hid & _ & Ht & Htne & _ & Hu & Hune). unfold all_present.
  rewrite Hid, Ht, Hu.
  rewrite (proj2 (truthy_string t) Htne), (proj2 (truthy_string u) Hune).
  reflexivity.
Qed.

Lemma well_formed_texts (req : Request) (t u t' u' : string) :
  well_formed req t u -> well_formed req t' u' -> t' = t /\ u' = u.
Proof.
  intros (_ & _ & Ht & _ & _ & Hu & _) (_ & _ & Ht' & _ & _ & Hu' & _).
  rewrite Ht in Ht'. rewrite Hu in Hu'.
  injection Ht' as <-. injection Hu' as <-. split; reflexivity.
Qed.

(** A well-formed request starts exactly one attempt. *)
Lemma handler_of_well_formed (w : World) (req : Request) (t u : string) :
  well_formed req t u ->
  exists id_text tr,
    run (verify_handler w req) =
      (Normal tt,
       [Log (LogVerifying id_text t); Log (LogImage (substring 0 50 u))]
       ++ tr) /\
    attempt_trace w (challengeId req) t u tr.
Proof.
  intros Hwf. pose proof (well_formed_present _ _ _ Hwf) as Hpresent.
  pose proof Hwf as (_ & Hnan & Ht & _ & Hlen & Hu & _).
  pose proof (handler_runs w req) as Hrun.
  inversion Hrun as [Hp | e Hp He | Hp Hn | Hp Hn Hlong | t' Hp Hn Ht' Hl Hnot
                     | t' u' id_text tr Hwf' Hid Htr]; subst.
  - rewrite Hpresent in Hp. discriminate Hp.
  - rewrite Hnan in He. discriminate He.
  - rewrite Hnan in Hn. discriminate Hn.
  - specialize (Hlong t Ht). lia.
  - exfalso. exact (Hnot u Hu).
  - destruct (well_formed_texts _ _ _ _ _ Hwf Hwf') as [-> ->].
    exists id_text, tr. split; [reflexivity | exact Htr].
Qed.

Lemma evaluator_answer_unique (w : World) (t u : string)
    (a1 a2 : option string) :
  evaluator_answer w t u a1 -> evaluator_answer w t u a2 -> a1 = a2.
Proof.
  intros (r1 & c1 & l1 & Hr1 & Hc1 & <-) (r2 & c2 & l2 & Hr2 & Hc2 & <-).
  rewrite Hr1 in Hr2. injection Hr2 as <-.
  rewrite Hc1 in Hc2. injection Hc2 as <- _. reflexivity.
Qed.

Lemma Send_In_responses (t : Trace) (r : Response) :
  In (Send r) t <-> In r (responses t).
Proof.
  induction t as [| ev t IH]; [reflexivity |].
  destruct ev; simpl; rewrite <- IH; split;
    try (intros [H | H]; [discriminate H | exact H]);
    try (intros H; right; exact H).
  - intros [H | H]; [injection H as ->; left; reflexivity | right; exact H].
  - intros [H | H]; [rewrite H; left; reflexivity | right; exact H].
Qed.

Lemma classified_failure (r : Response) (c : Category) :
  classified r c -> success r = false /\ txHash r = None.
Proof. intros H. destruct H; split; reflexivity. Qed.

(** What an attempt sends and what it submits, case by case. *)
Lemma attempt_trace_observed (w : World) (id : JsValue) (t u : string)
    (tr : Trace) :
  attempt_trace w id t u tr ->
  evaluator_calls tr = [chat_request t u] /\
  exists r,
    responses tr = [r] /\
    ((exists c, classified r c /\
                (ledger_calls tr = [] \/
                 (ledger_calls tr = [(id, GAS_LIMIT)] /\ c <> EvidenceRejected)))
     \/ (exists tx, contract_verifySuccess w id GAS_LIMIT = Fulfilled tx /\
                    Ethers.wait tx = Fulfilled tt /\
                    r = verified (Ethers.hash tx) /\
                    ledger_calls tr = [(id, GAS_LIMIT)])).
Proof.
  intros Htr.
  destruct Htr as [e _ | response _ _ | _ | a _ _ | a e _ _ _ | a tx e _ _ _ _
                   | a tx _ _ Hsubmit Hwait];
    try match goal with
        | |- context [catch_trace ?e] =>
            destruct (catch_trace_response e) as (r & Hr & Hc & Hl & He)
        end;
    rewrite ?evaluator_calls_app, ?responses_app, ?ledger_calls_app;
    rewrite ?Hr, ?Hl, ?He; simpl; (split; [reflexivity |]).
  - exists r. split; [reflexivity |]. left. eexists. split; [exact Hc |].
    left. reflexivity.
  - exists r. split; [reflexivity |]. left. eexists. split; [exact Hc |].
    left. reflexivity.
  - exists r. split; [reflexivity |]. left. eexists. split; [exact Hc |].
    left. reflexivity.
  - exists evidence_rejected. split; [reflexivity |]. left.
    exists EvidenceRejected. split; [constructor | left; reflexivity].
  - exists r. split; [reflexivity |]. left. eexists. split; [exact Hc |].
    right. split; [reflexivity |]. unfold classify.
    repeat match goal with
           | |- context [if ?b then _ else _] => destruct b
           end; discriminate.
  - exists r. split; [reflexivity |]. left. eexists. split; [exact Hc |].
    right. split; [reflexivity |]. unfold classify.
    repeat match goal with
           | |- context [if ?b then _ else _] => destruct b
           end; discriminate.
  - exists (verified (Ethers.hash tx)). split; [reflexivity |]. right.
    exists tx. repeat split; assumption.
Qed.

(** ** Attempts, read backwards from what the collaborators did *)

Ltac unify_answers :=
  repeat match goal with
         | H1 : evaluator_answer ?w ?t ?u ?a1,
           H2 : evaluator_answer ?w ?t ?u ?a2 |- _ =>
             let H := fresh "Hsame" in
             pose proof (evaluator_answer_unique w t u a1 a2 H1 H2) as H;
             first [discriminate H | injection H as H; subst; clear H2]
         end.

Ltac answer_contradicts_race :=
  match goal with
  | Ha : evaluator_answer ?w ?t ?u _,
    Hr : Promise_race (openai_create ?w (chat_request ?t ?u)) = _ |- _ =>
      let resp := fresh in let c := fresh in let l := fresh in
      let H1 := fresh in let H2 := fresh in
      destruct Ha as (resp & c & l & H1 & H2 & _);
      rewrite H1 in Hr;
      first [discriminate Hr
            | injection Hr as Hr; subst; rewrite H2 in *; discriminate]
  end.

Ltac settle_ledger :=
  repeat match goal with
         | H1 : ?x = Fulfilled _, H2 : ?x = Rejected _ |- _ =>
             rewrite H1 in H2; discriminate H2
         | H1 : ?x = Rejected _, H2 : ?x = Rejected _ |- _ =>
             rewrite H1 in H2; injection H2 as H2; subst
         | H1 : ?x = Fulfilled _, H2 : ?x = Fulfilled _ |- _ =>
             rewrite H1 in H2; injection H2 as H2; subst
         | H1 : ?x = true, H2 : ?x = false |- _ =>
             rewrite H1 in H2; discriminate H2
         end.

Lemma attempt_trace_race_lost (w : World) (id : JsValue) (t u : string)
    (tr : Trace) (e : JsError) :
  attempt_trace w id t u tr ->
  Promise_race (openai_create w (chat_request t u)) = Rejected e ->
  tr = [CreateCompletion (chat_request t u); SetTimeout AI_TIMEOUT_MS]
       ++ catch_trace e.
Proof.
  intros Htr Hrace.
  destruct Htr; try answer_contradicts_race; settle_ledger; reflexivity.
Qed.



Lemma attempt_trace_ledger_rejects (w : World) (id : JsValue) (t u : string)
    (tr : Trace) (a : string) (e : JsError) :
  attempt_trace w id t u tr ->
  evaluator_answer w t u (Some a) ->
  isVerified a = true ->
  ledger_rejects w id e ->
  responses tr = responses (catch_trace e) /\
  ledger_calls tr = [(id, GAS_LIMIT)].
Proof.
  intros Htr Hanswer Hverdict Hrejects.
  destruct Hrejects as [Hsubmit | (tx' & Hsubmit & Hwait)];
    destruct Htr; try answer_contradicts_race; unify_answers; settle_ledger;
    rewrite responses_app, ledger_calls_app;
    destruct (catch_trace_response e) as (r & Hr & _ & Hl & _);
    rewrite Hr, Hl; split; reflexivity.
Qed.


Lemma request_42_well_formed :
  well_formed request_42 "Run 5km" "data:image/jpeg;base64,/9j/4AAQ".
Proof.
  repeat split; try reflexivity; try discriminate. simpl. lia.
Defined.

Lemma answers_in_time (at_ms : N) (answer : option string)
    (ledger : Settlement Ethers.Tx) (t u : string) :
  (at_ms < AI_TIMEOUT_MS)%N ->
  evaluator_answer (world (answers at_ms answer) ledger) t u answer.
Proof.
  intros H. exists (completion_with answer). eexists. exists [].
  unfold Promise_race. simpl. apply N.ltb_lt in H. rewrite H.
  repeat split.
Defined.

(** ** The checks made before the pipeline *)

(** When the numeric conversion of the identifier completes, the handler
    is total: it completes normally and sends exactly one response, the
    success result or a response of the taxonomy. *)
Lemma handler_total_when_conversion_completes (w : World) (req : Request) :
  (forall e, isNaN_Number (challengeId req) <> Throw e) ->
  fst (run (verify_handler w req)) = Normal tt /\
  exists r,
    responses (snd (run (verify_handler w req))) = [r] /\
    ((exists h, r = verified h) \/ (exists c, classified r c)).
Proof.
  intros Hcompletes. pose proof (handler_runs w req) as Hrun.
  inversion Hrun as [Hp | e Hp He | Hp Hn | Hp Hn Hlong | t' Hp Hn Ht' Hl Hnot
                     | t u id_text tr Hwf Hid Htr];
    try (split; [reflexivity |]; eexists; split; [reflexivity |]; right;
         eexists; constructor).
  - exfalso. exact (Hcompletes e He).
  - split; [reflexivity |].
    destruct (attempt_trace_observed _ _ _ _ _ Htr) as (_ & r & Hr & Hkind).
    exists r. simpl. split; [exact Hr |].
    destruct Hkind as [(c & Hc & _) | (tx & _ & _ & -> & _)].
    + right. exists c. exact Hc.
    + left. eexists. reflexivity.
Qed.

(** A response of the taxonomy belongs to one category only. *)
Lemma classified_functional (r : Response) (c1 c2 : Category) :
  classified r c1 -> classified r c2 -> c1 = c2.
Proof.
  intros H1 H2. destruct H1; inversion H2; reflexivity.
Qed.

(** When the identifier converts, a title that is not a string or is
    longer than 500 characters is refused with a validation failure and
    the evaluator is not called. *)
Lemma title_refused_when_conversion_completes (w : World) (req : Request) :
  (forall e, isNaN_Number (challengeId req) <> Throw e) ->
  (forall s, title req = JString s -> (500 < length s)%nat) ->
  exists r,
    responses (snd (run (verify_handler w req))) = [r] /\
    classified r ValidationFailed /\
    evaluator_calls (snd (run (verify_handler w req))) = [].
Proof.
  intros Hcompletes Hbad. pose proof (handler_runs w req) as Hrun.
  inversion Hrun as [Hp | e Hp He | Hp Hn | Hp Hn Hlong | t' Hp Hn Ht' Hl Hnot
                     | t u id_text tr Hwf Hid Htr];
    try (eexists; split; [reflexivity |]; split; [constructor | reflexivity]).
  - exfalso. exact (Hcompletes e He).
  - destruct Hwf as (_ & _ & Ht & _ & Hlen & _). specialize (Hbad t Ht). lia.
Qed.

(** A title of exactly 500 characters passes. *)
Lemma title_of_500_passes (w : World) (req : Request) (t u : string) :
  well_formed req t u ->
  length t = 500%nat ->
  evaluator_calls (snd (run (verify_handler w req))) = [chat_request t u].
Proof.
  intros Hwf _.
  destruct (handler_of_well_formed w req t u Hwf) as (id_text & tr & -> & Htr).
  destruct (attempt_trace_observed _ _ _ _ _ Htr) as (Hcalls & _).
  simpl. exact Hcalls.
Qed.

(** ** The identifier check *)

Section Identifier.

Local Arguments Ascii.eqb : simpl never.

Lemma digit_is_plain (c : ascii) :
  is_digit c = true ->
  is_white_space c = false /\ (c =? "+")%char = false /\
  (c =? "-")%char = false /\ (c =? ".")%char = false.
Proof.
  destruct c as [[] [] [] [] [] [] [] []]; vm_compute; intros H;
    try discriminate H; repeat split.
Qed.

Lemma unsigned_when_no_sign (c : ascii) (r : string) :
  (c =? "+")%char = false -> (c =? "-")%char = false ->
  is_StrDecimalLiteral (String c r) = is_StrUnsignedDecimalLiteral (String c r).
Proof.
  destruct c as [[] [] [] [] [] [] [] []]; intros Hplus Hminus;
    try discriminate Hplus; try discriminate Hminus; reflexivity.
Qed.

Lemma skip_digits_all (s : string) :
  all_chars is_digit s = true -> skip_digits s = (length s, "").
Proof.
  induction s as [| c r IH]; simpl; [reflexivity |].
  intros H. apply andb_true_iff in H as [Hc Hr].
  rewrite Hc, (IH Hr). reflexivity.
Qed.

Lemma trimEnd_digits (s : string) :
  all_chars is_digit s = true -> trimEnd s = s.
Proof.
  induction s as [| c r IH]; simpl; [reflexivity |].
  intros H. apply andb_true_iff in H as [Hc Hr]. rewrite (IH Hr).
  destruct r; [| reflexivity].
  destruct (digit_is_plain c Hc) as (-> & _). reflexivity.
Qed.

(** A non-empty run of decimal digits converts to a number. *)
Lemma digits_convert (s : string) :
  one_or_more is_digit s = true -> StringToNumber_isNaN s = false.
Proof.
  destruct s as [| c r]; [discriminate |].
  unfold one_or_more. intros Hall. pose proof Hall as Hall'.
  simpl in Hall'. apply andb_true_iff in Hall' as [Hc Hr].
  destruct (digit_is_plain c Hc) as (Hws & Hplus & Hminus & _).
  unfold StringToNumber_isNaN, trim.
  replace (trimStart (String c r)) with (String c r)
    by (simpl; rewrite Hws; reflexivity).
  rewrite (trimEnd_digits _ Hall).
  rewrite (unsigned_when_no_sign c r Hplus Hminus).
  unfold is_StrUnsignedDecimalLiteral.
  rewrite (skip_digits_all _ Hall). simpl.
  rewrite orb_true_r. reflexivity.
Qed.

(** Non-zero numbers and texts of decimal digits pass both tests made on
    the identifier. *)
Lemma numeric_challengeId_accepted (v : JsValue) :
  (exists neg digits n, v = JNumber (Finite neg digits n)) \/
  (exists s, v = JString s /\ one_or_more is_digit s = true) ->
  ToBoolean v = true /\ isNaN_Number v = Normal false.
Proof.
  intros [(neg & digits & n & ->) | (s & -> & Hs)].
  - split; reflexivity.
  - split.
    + destruct s; [discriminate Hs | reflexivity].
    + simpl. rewrite (digits_convert s Hs). reflexivity.
Qed.

End Identifier.

(** ** The claims *)






(** C3. When the evaluator's call has not settled within the 60-second
    deadline (it never settles, or settles later than [AI_TIMEOUT_MS]), the
    race is won by the timer and the attempt ends as EvaluatorTimeout and
    as no other category: the one response is status 504 with the fixed
    timeout message, and the ledger is not invoked. *)
Theorem C3_deadline_yields_timeout (w : World) (req : Request) (t u : string) :
  well_formed req t u ->
  (forall at_ms s,
      openai_create w (chat_request t u) = Settles at_ms s ->
      (AI_TIMEOUT_MS < at_ms)%N) ->
  Promise_race (openai_create w (chat_request t u)) = Rejected timeout_error /\
  responses (snd (run (verify_handler w req))) =
    [ {| status := 504; success := false;
         message := Some "AI verification timed out. Please try again.";
         txHash := None |} ] /\
  (forall c, classified evaluator_timeout c -> c = EvaluatorTimeout) /\
  ledger_calls (snd (run (verify_handler w req))) = [].
Proof.
  intros Hwf Hlate.
  assert (Promise_race (openai_create w (chat_request t u))
          = Rejected timeout_error) as Hrace.
  { unfold Promise_race.
    destruct (openai_create w (chat_request t u)) as [at_ms s |] eqn:Hai;
      [| reflexivity].
    specialize (Hlate at_ms s eq_refl).
    destruct (N.ltb_spec at_ms AI_TIMEOUT_MS); [lia | reflexivity]. }
  split; [exact Hrace |].
  destruct (handler_of_well_formed w req t u Hwf) as (id_text & tr & -> & Htr).
  rewrite (attempt_trace_race_lost _ _ _ _ _ _ Htr Hrace).
  repeat split. intros c Hc.
  exact (classified_functional _ _ _ Hc classified_evaluator_timeout).
Qed.

Lemma C3_deadline_yields_timeout_witness :
  responses
    (snd (run (verify_handler
                 (world (answers 60001 (Some "YES")) (Fulfilled tx_included))
                 request_42)))
  = [evaluator_timeout].
Proof.
  apply (C3_deadline_yields_timeout
           (world (answers 60001 (Some "YES")) (Fulfilled tx_included))
           request_42 "Run 5km" "data:image/jpeg;base64,/9j/4AAQ").
  - exact request_42_well_formed.
  - intros at_ms s H. injection H as <- _. reflexivity.
Defined.

(** C4 (every run ends in exactly one response) does not hold of the
    handler.  For a body whose identifier is an object with a non-callable
    own "toString", [Number(challengeId)] throws a TypeError before the
    [try] block is entered; the exception leaves the handler, which has
    sent no response, whatever the collaborators would do. *)
Theorem C4_conversion_error_escapes (w : World) :
  all_present request_shadowed_toString = true /\
  run (verify_handler w request_shadowed_toString) =
    (Throw cannot_convert, []) /\
  responses (snd (run (verify_handler w request_shadowed_toString))) = [].
Proof. repeat split. Qed.

(** C5. A failure caught at the boundary is answered with the fixed
    response of its category and nothing else: two failures of the same
    category are answered identically whatever their own text, code or
    payload; the answer is one of four constants and carries no transaction
    identifier; and every failure response of a run is one of the constant
    responses of the taxonomy. *)
Theorem C5_boundary_message_by_category :
  (forall e1 e2 : JsError,
      classify e1 = classify e2 ->
      responses (snd (run (catch_block e1))) =
      responses (snd (run (catch_block e2)))) /\
  (forall e : JsError,
      exists r,
        responses (snd (run (catch_block e))) = [r] /\
        classified r (classify e) /\
        In r [evaluator_timeout; already_finalized; evaluator_rate_limited;
              internal_failure] /\
        success r = false /\ txHash r = None) /\
  (forall (w : World) (req : Request) (r : Response),
      In (Send r) (snd (run (verify_handler w req))) ->
      success r = false ->
      exists c, classified r c).
Proof.
  split; [| split].
  - intros e1 e2. unfold classify, catch_block. unfold_monad.
    repeat match goal with
           | |- context [if ?b then _ else _] => destruct b
           end; simpl; intros H; try discriminate H; reflexivity.
  - intros e. fold (catch_trace e).
    destruct (catch_trace_response e) as (r & Hr & Hc & _).
    exists r. split; [exact Hr |]. split; [exact Hc |].
    split; [| exact (classified_failure _ _ Hc)].
    revert Hc. unfold classify.
    repeat match goal with
           | |- context [if ?b then _ else _] => destruct b
           end; intros Hc; inversion Hc; simpl; auto.
  - intros w req r Hin Hfailure. apply Send_In_responses in Hin.
    pose proof (handler_runs w req) as Hrun.
    inversion Hrun as [Hp | e Hp He | Hp Hn | Hp Hn Hlong | t' Hp Hn Ht' Hl Hnot
                       | t u id_text tr Hwf Hid Htr];
      match goal with H : _ = run _ |- _ => rewrite <- H in Hin end;
      simpl in Hin;
      try (destruct Hin as [<- | []]; eexists; constructor);
      try contradiction.
    destruct (attempt_trace_observed _ _ _ _ _ Htr) as (_ & r' & Hr' & Hkind).
    rewrite Hr' in Hin. destruct Hin as [<- | []].
    destruct Hkind as [(c & Hc & _) | (tx & _ & _ & -> & _)].
    + exists c. exact Hc.
    + discriminate Hfailure.
Qed.

Lemma C5_boundary_message_by_category_witness :
  responses
    (snd (run (catch_block
                 {| error_message := Some "connect ECONNREFUSED 127.0.0.1:8545";
                    error_code := Some "ECONNREFUSED";
                    error_response := false |}))) =
  responses
    (snd (run (catch_block
                 {| error_message := Some "401 No auth credentials found";
                    error_code := None;
                    error_response := true |}))).
Proof.
  apply (proj1 C5_boundary_message_by_category
           {| error_message := Some "connect ECONNREFUSED 127.0.0.1:8545";
              error_code := Some "ECONNREFUSED";
              error_response := false |}
           {| error_message := Some "401 No auth credentials found";
              error_code := None;
              error_response := true |}).
  reflexivity.
Defined.

(** C6.  When the evaluator approves and the ledger rejects the commit
    with code CALL_EXCEPTION, at submission or while inclusion is awaited,
    the handler answers with AlreadyFinalized: status 400, success false,
    the fixed message; the ledger was called once and is not called
    again.  The error is one the ledger client raises: its message is not
    the timer's own text "AI verification timeout" (the client ends every
    message with the error's code and its version). *)
Theorem C6_revert_is_already_finalized (w : World) (req : Request)
    (t u a : string) (e : JsError) :
  well_formed req t u ->
  evaluator_answer w t u (Some a) ->
  isVerified a = true ->
  ledger_rejects w (challengeId req) e ->
  error_code e = Some "CALL_EXCEPTION" ->
  error_message e <> Some "AI verification timeout" ->
  responses (snd (run (verify_handler w req))) =
    [ {| status := 400; success := false;
         message :=
           Some "Challenge may already be verified or does not exist.";
         txHash := None |} ] /\
  classified already_finalized AlreadyFinalized /\
  ledger_calls (snd (run (verify_handler w req))) =
    [(challengeId req, GAS_LIMIT)].
Proof.
  intros Hwf Hanswer Hverdict Hrejects Hcode Hmessage.
  destruct (handler_of_well_formed w req t u Hwf) as (id_text & tr & -> & Htr).
  destruct (attempt_trace_ledger_rejects _ _ _ _ _ _ _ Htr Hanswer Hverdict
              Hrejects) as [Hresponses Hcalls].
  simpl. rewrite Hresponses, Hcalls.
  split; [| split; [constructor | reflexivity]].
  unfold catch_trace, catch_block, message_is, code_is. unfold_monad.
  rewrite Hcode. destruct (error_message e) as [m |] eqn:Hm.
  - destruct (String.eqb_spec m "AI verification timeout") as [-> | _].
    + exfalso. apply Hmessage. reflexivity.
    + reflexivity.
  - reflexivity.
Qed.

Lemma C6_revert_is_already_finalized_witness :
  responses
    (snd (run (verify_handler
                 (world (answers 1200 (Some "YES"))
                        (Rejected
                           (reverted
                              "execution reverted (action=estimateGas, code=CALL_EXCEPTION, version=6.13.0)")))
                 request_42)))
  = [already_finalized].
Proof.
  assert ((1200 < AI_TIMEOUT_MS)%N) as Hin_time by reflexivity.
  apply (C6_revert_is_already_finalized
           (world (answers 1200 (Some "YES"))
                  (Rejected
                     (reverted
                        "execution reverted (action=estimateGas, code=CALL_EXCEPTION, version=6.13.0)")))
           request_42 "Run 5km" "data:image/jpeg;base64,/9j/4AAQ" "YES"
           (reverted
              "execution reverted (action=estimateGas, code=CALL_EXCEPTION, version=6.13.0)")
           request_42_well_formed
           (answers_in_time _ _ _ _ _ Hin_time)
           eq_refl (or_introl eq_refl) eq_refl).
  discriminate.
Defined.

(** C7 (a title that is too long is always refused with a validation
    failure) does not hold of the handler.  For a title of 501 characters
    next to an identifier whose conversion throws, the title check is
    never reached and no validation failure is sent. *)
Theorem C7_title_check_not_reached (w : World) :
  title request_shadowed_long_title = JString title_501 /\
  length title_501 = 501%nat /\
  run (verify_handler w request_shadowed_long_title) =
    (Throw cannot_convert, []) /\
  responses (snd (run (verify_handler w request_shadowed_long_title))) = [].
Proof. repeat split. Qed.

(** C8 (an integer identifier, number or text, is accepted) does not hold
    of the handler for the number 0.  The presence test [!challengeId]
    takes it for a missing field and the request is refused, though its
    numeric conversion is not NaN and the same identifier given as the
    text "0" is accepted and reaches the evaluator. *)
Theorem C8_zero_taken_for_missing (w : World) :
  isNaN_Number (challengeId request_zero) = Normal false /\
  run (verify_handler w request_zero) = (Normal tt, [Send missing_fields]) /\
  classified missing_fields ValidationFailed /\
  evaluator_calls (snd (run (verify_handler w request_zero_text))) =
    [chat_request "Run 5km" "data:image/jpeg;base64,/9j/4AAQ"].
Proof.
  split; [reflexivity |]. split; [reflexivity |]. split; [constructor |].
  assert (well_formed request_zero_text "Run 5km"
            "data:image/jpeg;base64,/9j/4AAQ") as Hwf.
  { repeat split; try reflexivity; try discriminate. simpl. lia. }
  destruct (handler_of_well_formed w _ _ _ Hwf) as (id_text & tr & -> & Htr).
  destruct (attempt_trace_observed _ _ _ _ _ Htr) as (Hcalls & _).
  simpl. exact Hcalls.
Qed.

(** C9. A success response is sent only after the submitted transaction
    was included: [contract.verifySuccess] resolved with a transaction,
    its [wait()] resolved, and only then [{ success: true, txHash }] is
    sent, with the hash of that one transaction; it is the last event of
    the attempt and the only response. *)
Theorem C9_success_after_inclusion (w : World) (req : Request) (r : Response) :
  In (Send r) (snd (run (verify_handler w req))) ->
  success r = true ->
  exists tx before,
    contract_verifySuccess w (challengeId req) GAS_LIMIT = Fulfilled tx /\
    Ethers.wait tx = Fulfilled tt /\
    r = {| status := 200; success := true; message := None;
           txHash := Some (Ethers.hash tx) |} /\
    snd (run (verify_handler w req)) =
      before ++
      [VerifySuccess (challengeId req) GAS_LIMIT;
       Log (LogTransactionSent (Ethers.hash tx));
       Wait (Ethers.hash tx);
       Log LogConfirmed;
       Send r] /\
    ledger_calls before = [] /\
    responses before = [].
Proof.
  intros Hin Hsuccess.
  pose proof (handler_runs w req) as Hrun.
  inversion Hrun as [Hp | e Hp He | Hp Hn | Hp Hn Hlong | t' Hp Hn Ht' Hl Hnot
                     | t u id_text tr Hwf Hid Htr];
    match goal with H : _ = run _ |- _ => rename H into Hrun'; rewrite <- Hrun' in Hin end;
    simpl in Hin;
    try (destruct Hin as [Hin | []]; injection Hin as <-;
         discriminate Hsuccess);
    try contradiction.
  destruct Hin as [Hin | [Hin | Hin]]; try discriminate Hin.
  destruct Htr as [e _ | response _ _ | _ | a _ _ | a e _ _ _ | a tx e _ _ _ _
                   | a tx _ _ Hsubmit Hwait].
  all: try (apply Send_In_responses in Hin;
            rewrite ?responses_app in Hin;
            try match type of Hin with
                | context [catch_trace ?e] =>
                    destruct (catch_trace_response e) as (r' & Hr' & Hc & _);
                    rewrite Hr' in Hin; simpl in Hin;
                    destruct Hin as [<- | []];
                    destruct (classified_failure _ _ Hc) as [Hfalse _];
                    rewrite Hfalse in Hsuccess; discriminate Hsuccess
                end).
  - simpl in Hin. destruct Hin as [<- | []]. discriminate Hsuccess.
  - simpl in Hin. destruct Hin as [<- | []].
    exists tx.
    exists [Log (LogVerifying id_text t); Log (LogImage (substring 0 50 u));
            CreateCompletion (chat_request t u); SetTimeout AI_TIMEOUT_MS;
            Log (LogAiResponse a); Log LogApproved].
    repeat split; assumption.
Qed.

Lemma C9_success_after_inclusion_witness :
  exists tx before,
    Fulfilled tx_included = Fulfilled tx /\
    Ethers.wait tx = Fulfilled tt /\
    verified "0x1234567890abcdef" =
      {| status := 200; success := true; message := None;
         txHash := Some (Ethers.hash tx) |} /\
    snd (run (verify_handler
                (world (answers 1200 (Some "YES")) (Fulfilled tx_included))
                request_42)) =
      before ++
      [VerifySuccess (JString "42") GAS_LIMIT;
       Log (LogTransactionSent (Ethers.hash tx));
       Wait (Ethers.hash tx);
       Log LogConfirmed;
       Send (verified "0x1234567890abcdef")] /\
    ledger_calls before = [] /\
    responses before = [].
Proof.
  apply (C9_success_after_inclusion
           (world (answers 1200 (Some "YES")) (Fulfilled tx_included))
           request_42 (verified "0x1234567890abcdef")).
  - vm_compute. do 10 right. left. reflexivity.
  - reflexivity.
Defined.

(** C10. The evidence field passes the checks made before the pipeline as
    soon as it is a non-empty string, whatever its shape (no data-URL,
    image-format or URL test is made), and that string is what the
    evaluator receives as the image reference, in the one request issued. *)
Theorem C10_any_nonempty_image_forwarded (w : World) (req : Request)
    (t u : string) :
  ToBoolean (challengeId req) = true ->
  isNaN_Number (challengeId req) = Normal false ->
  title req = JString t -> t <> "" -> (length t <= 500)%nat ->
  imageUrl req = JString u ->
  u <> "" ->
  evaluator_calls (snd (run (verify_handler w req))) = [chat_request t u] /\
  OpenAI.image_url (chat_request t u) = u /\
  forall r, In r (responses (snd (run (verify_handler w req)))) ->
            ~ classified r ValidationFailed.
Proof.
  intros Hid Hnan Ht Htne Hlen Hu Hune.
  assert (well_formed req t u) as Hwf by (repeat split; assumption).
  destruct (handler_of_well_formed w req t u Hwf) as (id_text & tr & -> & Htr).
  destruct (attempt_trace_observed _ _ _ _ _ Htr) as (Hcalls & r & Hr & Hkind).
  simpl. rewrite Hcalls, Hr. split; [reflexivity |]. split; [reflexivity |].
  intros r' [<- | []] Hvalidation.
  destruct Htr;
    try match type of Hr with
        | context [catch_trace ?e] =>
            rewrite responses_app in Hr; simpl in Hr;
            destruct (catch_trace_response e) as (r' & Hr' & Hc & _);
            rewrite Hr' in Hr; injection Hr as ->;
            revert Hc; unfold classify;
            repeat match goal with
                   | |- context [if ?b then _ else _] => destruct b
                   end;
            intros Hc; inversion Hc; subst; inversion Hvalidation
        end;
    simpl in Hr; injection Hr as <-; inversion Hvalidation.
Qed.

Lemma C10_any_nonempty_image_forwarded_witness :
  evaluator_calls
    (snd (run (verify_handler
                 (world (answers 1200 (Some "NO")) (Fulfilled tx_included))
                 {| challengeId := JString "42";
                    title := JString "Run 5km";
                    imageUrl := JString "not a url" |})))
  = [chat_request "Run 5km" "not a url"].
Proof.
  apply (C10_any_nonempty_image_forwarded
           (world (answers 1200 (Some "NO")) (Fulfilled tx_included))
           {| challengeId := JString "42";
              title := JString "Run 5km";
              imageUrl := JString "not a url" |}
           "Run 5km" "not a url");
    try reflexivity; try discriminate.
  simpl. lia.
Defined.

(** ** Further properties of the verification endpoint *)

Lemma attempt_trace_included (w : World) (id : JsValue) (t u : string)
    (tr : Trace) (a : string) (tx : Ethers.Tx) :
  attempt_trace w id t u tr ->
  evaluator_answer w t u (Some a) ->
  isVerified a = true ->
  contract_verifySuccess w id GAS_LIMIT = Fulfilled tx ->
  Ethers.wait tx = Fulfilled tt ->
  tr = [CreateCompletion (chat_request t u); SetTimeout AI_TIMEOUT_MS;
        Log (LogAiResponse a); Log LogApproved; VerifySuccess id GAS_LIMIT;
        Log (LogTransactionSent (Ethers.hash tx)); Wait (Ethers.hash tx);
        Log LogConfirmed; Send (verified (Ethers.hash tx))].
Proof.
  intros Htr Hanswer Hverdict Hsubmit Hwait.
  destruct Htr; try answer_contradicts_race; unify_answers; settle_ledger;
    reflexivity.
Qed.

(** The response a category of the boundary stands for. *)
Lemma classified_boundary (r : Response) (e : JsError) :
  classified r (classify e) ->
  (classify e = EvaluatorTimeout /\ r = evaluator_timeout) \/
  (classify e = AlreadyFinalized /\ r = already_finalized) \/
  (classify e = EvaluatorRateLimited /\ r = evaluator_rate_limited) \/
  (classify e = InternalFailure /\ r = internal_failure).
Proof.
  unfold classify.
  repeat match goal with
         | |- context [if ?b then _ else _] => destruct b
         end; intros H; inversion H; auto.
Qed.

(** X1. The success path: a request that passes the checks, an answer
    that is approved, a submission that resolves and an inclusion that is
    confirmed give the one response [{ success: true, txHash }] with the
    hash of the submitted transaction, after one evaluator request and one
    ledger call. *)
Theorem X1_approved_and_included_succeeds (w : World) (req : Request)
    (t u a : string) (tx : Ethers.Tx) :
  well_formed req t u ->
  evaluator_answer w t u (Some a) ->
  isVerified a = true ->
  contract_verifySuccess w (challengeId req) GAS_LIMIT = Fulfilled tx ->
  Ethers.wait tx = Fulfilled tt ->
  fst (run (verify_handler w req)) = Normal tt /\
  responses (snd (run (verify_handler w req))) =
    [ {| status := 200; success := true; message := None;
         txHash := Some (Ethers.hash tx) |} ] /\
  evaluator_calls (snd (run (verify_handler w req))) = [chat_request t u] /\
  ledger_calls (snd (run (verify_handler w req))) =
    [(challengeId req, 200000%N)].
Proof.
  intros Hwf Hanswer Hverdict Hsubmit Hwait.
  destruct (handler_of_well_formed w req t u Hwf) as (id_text & tr & -> & Htr).
  rewrite (attempt_trace_included _ _ _ _ _ _ _ Htr Hanswer Hverdict
             Hsubmit Hwait).
  repeat split.
Qed.

Lemma X1_approved_and_included_succeeds_witness :
  responses
    (snd (run (verify_handler
                 (world (answers 1200 (Some " yes ")) (Fulfilled tx_included))
                 request_42)))
  = [verified "0x1234567890abcdef"].
Proof.
  assert ((1200 < AI_TIMEOUT_MS)%N) as Hin_time by reflexivity.
  apply (X1_approved_and_included_succeeds
           (world (answers 1200 (Some " yes ")) (Fulfilled tx_included))
           request_42 "Run 5km" "data:image/jpeg;base64,/9j/4AAQ" " yes "
           tx_included request_42_well_formed
           (answers_in_time _ _ _ _ _ Hin_time) eq_refl eq_refl eq_refl).
Defined.

(** X2. The evaluator is contacted exactly for the requests that pass the
    four checks: a request is sent to it if and only if the identifier is
    truthy and converts to a number, the title is a non-empty string of at
    most 500 characters and the evidence is a non-empty string; the
    request then carries that title and that evidence. *)
Theorem X2_evaluator_called_iff_well_formed (w : World) (req : Request)
    (q : OpenAI.ChatRequest) :
  In q (evaluator_calls (snd (run (verify_handler w req)))) <->
  exists t u, well_formed req t u /\ q = chat_request t u.
Proof.
  split.
  - intros Hin. pose proof (handler_runs w req) as Hrun.
    inversion Hrun as [Hp | e Hp He | Hp Hn | Hp Hn Hlong | t' Hp Hn Ht' Hl Hnot
                       | t u id_text tr Hwf Hid Htr];
      match goal with H : _ = run _ |- _ => rewrite <- H in Hin end;
      simpl in Hin; try contradiction.
    destruct (attempt_trace_observed _ _ _ _ _ Htr) as (Hcalls & _).
    rewrite Hcalls in Hin. destruct Hin as [<- | []].
    exists t, u. split; [exact Hwf | reflexivity].
  - intros (t & u & Hwf & ->).
    destruct (handler_of_well_formed w req t u Hwf) as (id_text & tr & -> & Htr).
    destruct (attempt_trace_observed _ _ _ _ _ Htr) as (Hcalls & _).
    simpl. rewrite Hcalls. left. reflexivity.
Qed.

(** X3. One run is single-shot: it sends at most one response, issues at
    most one evaluator request and at most one ledger call.  A ledger call
    carries the identifier exactly as it was received and the gas limit
    200000, and it comes after the evaluator request and before any
    response: the events before it hold the one evaluator request, no
    response and no ledger call, and no ledger call follows it.  The run
    has sent its response exactly when it completes normally. *)
Theorem X3_single_shot (w : World) (req : Request) :
  (List.length (responses (snd (run (verify_handler w req)))) <= 1)%nat /\
  (List.length (evaluator_calls (snd (run (verify_handler w req)))) <= 1)%nat /\
  (List.length (ledger_calls (snd (run (verify_handler w req)))) <= 1)%nat /\
  (forall id gas,
      In (id, gas) (ledger_calls (snd (run (verify_handler w req)))) ->
      id = challengeId req /\ gas = 200000%N /\
      evaluator_calls (snd (run (verify_handler w req))) <> [] /\
      exists before after,
        snd (run (verify_handler w req)) =
          before ++ VerifySuccess id gas :: after /\
        evaluator_calls before =
          evaluator_calls (snd (run (verify_handler w req))) /\
        responses before = [] /\
        ledger_calls before = [] /\
        ledger_calls after = []) /\
  (fst (run (verify_handler w req)) = Normal tt <->
   List.length (responses (snd (run (verify_handler w req)))) = 1%nat).
Proof.
  pose proof (handler_runs w req) as Hrun.
  inversion Hrun as [Hp | e Hp He | Hp Hn | Hp Hn Hlong | t' Hp Hn Ht' Hl Hnot
                     | t u id_text tr Hwf Hid Htr];
    simpl;
    try (repeat split; try lia; try contradiction; discriminate).
  destruct (attempt_trace_observed _ _ _ _ _ Htr) as (Hcalls & r & Hr & Hkind).
  rewrite Hcalls, Hr. simpl.
  split; [lia |]. split; [lia |].
  assert (forall e, ledger_calls (catch_trace e) = []) as Hcatch
    by (intros e; destruct (catch_trace_response e) as (r0 & _ & _ & Hl & _);
        exact Hl).
  assert (ledger_calls tr = [] \/
          exists a after,
            tr = [CreateCompletion (chat_request t u);
                  SetTimeout AI_TIMEOUT_MS; Log (LogAiResponse a);
                  Log LogApproved;
                  VerifySuccess (challengeId req) GAS_LIMIT] ++ after /\
            ledger_calls after = [])
    as [Hl | (a & after & -> & Hafter)].
  { destruct Htr as [e _ | response _ _ | _ | a _ _ | a e _ _ _ | a tx e _ _ _ _
                     | a tx _ _ _ _];
      rewrite ?ledger_calls_app, ?Hcatch; simpl; auto; right; exists a.
    - exists (catch_trace e). split; [reflexivity | apply Hcatch].
    - exists ([Log (LogTransactionSent (Ethers.hash tx));
               Wait (Ethers.hash tx)] ++ catch_trace e).
      split; [reflexivity |]. rewrite ledger_calls_app, Hcatch. reflexivity.
    - eexists. split; reflexivity. }
  - rewrite Hl. simpl. repeat split; try lia; contradiction.
  - rewrite ledger_calls_app, Hafter. simpl.
    split; [lia |]. split; [| split; intros; reflexivity].
    intros id gas [Hin | []]. injection Hin as <- <-.
    split; [reflexivity |]. split; [reflexivity |]. split; [discriminate |].
    exists [Log (LogVerifying id_text t); Log (LogImage (substring 0 50 u));
            CreateCompletion (chat_request t u); SetTimeout AI_TIMEOUT_MS;
            Log (LogAiResponse a); Log LogApproved], after.
    repeat split. exact Hafter.
Qed.

(** X4. A failure of the evaluator's call that arrives before the
    deadline ends the attempt with the one response of the error's
    category and without any ledger call: 429 with the fixed rate-limit
    message when the error's message mentions "rate limit", 500 with the
    generic message for any other error without the revert code or the
    timer's text. *)
Theorem X4_evaluator_failure_classified (w : World) (req : Request)
    (t u : string) (at_ms : N) (e : JsError) :
  well_formed req t u ->
  openai_create w (chat_request t u) = Settles at_ms (Rejected e) ->
  (at_ms < AI_TIMEOUT_MS)%N ->
  message_is e "AI verification timeout" = false ->
  code_is e "CALL_EXCEPTION" = false ->
  responses (snd (run (verify_handler w req))) =
    [ if message_includes e "rate limit" then
        {| status := 429; success := false;
           message :=
             Some "AI service rate limited. Please try again in a few seconds.";
           txHash := None |}
      else
        {| status := 500; success := false;
           message := Some "Verification process failed. Please try again.";
           txHash := None |} ] /\
  ledger_calls (snd (run (verify_handler w req))) = [].
Proof.
  intros Hwf Hai Hin_time Hmessage Hcode.
  assert (Promise_race (openai_create w (chat_request t u)) = Rejected e)
    as Hrace.
  { unfold Promise_race. rewrite Hai. apply N.ltb_lt in Hin_time.
    rewrite Hin_time. reflexivity. }
  destruct (handler_of_well_formed w req t u Hwf) as (id_text & tr & -> & Htr).
  rewrite (attempt_trace_race_lost _ _ _ _ _ _ Htr Hrace).
  unfold catch_trace, catch_block. unfold_monad.
  rewrite Hmessage, Hcode.
  destruct (message_includes e "rate limit"); [split; reflexivity |].
  destruct (error_response e); split; reflexivity.
Qed.

Lemma X4_evaluator_failure_classified_witness :
  responses
    (snd (run (verify_handler
                 (world (Settles 300
                           (Rejected
                              {| error_message :=
                                   Some "429 Provider returned error: rate limit exceeded";
                                 error_code := None;
                                 error_response := true |}))
                        (Fulfilled tx_included))
                 request_42)))
  = [evaluator_rate_limited].
Proof.
  apply (X4_evaluator_failure_classified
           (world (Settles 300
                     (Rejected
                        {| error_message :=
                             Some "429 Provider returned error: rate limit exceeded";
                           error_code := None;
                           error_response := true |}))
                  (Fulfilled tx_included))
           request_42 "Run 5km" "data:image/jpeg;base64,/9j/4AAQ" 300
           {| error_message :=
                Some "429 Provider returned error: rate limit exceeded";
              error_code := None;
              error_response := true |}
           request_42_well_formed eq_refl eq_refl eq_refl eq_refl).
Defined.

(** X5. A failure of the ledger other than a revert, after an approved
    verdict, is not told apart from an evaluator failure: when its message
    mentions "rate limit" the caller is told that the AI service is rate
    limited (429), otherwise the generic 500; the ledger was called once. *)
Theorem X5_ledger_failure_classified (w : World) (req : Request)
    (t u a : string) (e : JsError) :
  well_formed req t u ->
  evaluator_answer w t u (Some a) ->
  isVerified a = true ->
  ledger_rejects w (challengeId req) e ->
  message_is e "AI verification timeout" = false ->
  code_is e "CALL_EXCEPTION" = false ->
  responses (snd (run (verify_handler w req))) =
    [ if message_includes e "rate limit" then evaluator_rate_limited
      else internal_failure ] /\
  ledger_calls (snd (run (verify_handler w req))) =
    [(challengeId req, GAS_LIMIT)].
Proof.
  intros Hwf Hanswer Hverdict Hrejects Hmessage Hcode.
  destruct (handler_of_well_formed w req t u Hwf) as (id_text & tr & -> & Htr).
  destruct (attempt_trace_ledger_rejects _ _ _ _ _ _ _ Htr Hanswer Hverdict
              Hrejects) as [Hresponses Hcalls].
  simpl. rewrite Hresponses, Hcalls. split; [| reflexivity].
  unfold catch_trace, catch_block. unfold_monad.
  rewrite Hmessage, Hcode.
  destruct (message_includes e "rate limit"); [reflexivity |].
  destruct (error_response e); reflexivity.
Qed.

Lemma X5_ledger_failure_classified_witness :
  responses
    (snd (run (verify_handler
                 (world (answers 1200 (Some "YES"))
                        (Rejected
                           {| error_message :=
                                Some "exceeded its compute units rate limit";
                              error_code := Some "SERVER_ERROR";
                              error_response := false |}))
                 request_42)))
  = [evaluator_rate_limited].
Proof.
  assert ((1200 < AI_TIMEOUT_MS)%N) as Hin_time by reflexivity.
  apply (X5_ledger_failure_classified
           (world (answers 1200 (Some "YES"))
                  (Rejected
                     {| error_message :=
                          Some "exceeded its compute units rate limit";
                        error_code := Some "SERVER_ERROR";
                        error_response := false |}))
           request_42 "Run 5km" "data:image/jpeg;base64,/9j/4AAQ" "YES"
           {| error_message := Some "exceeded its compute units rate limit";
              error_code := Some "SERVER_ERROR";
              error_response := false |}
           request_42_well_formed (answers_in_time _ _ _ _ _ Hin_time)
           eq_refl (or_introl eq_refl) eq_refl eq_refl).
Defined.

(** ** The verdict on the raw text *)

Section RawVerdict.

Local Open Scope string_scope.

Lemma string_app_assoc (a b c : string) : (a ++ b) ++ c = a ++ (b ++ c).
Proof. induction a as [| x a IH]; simpl; [| rewrite IH]; reflexivity. Qed.

Lemma string_snoc_inj (a b : string) (c d : ascii) :
  a ++ String c "" = b ++ String d "" -> a = b /\ c = d.
Proof.
  revert b. induction a as [| x a IH]; intros [| y b] H; simpl in H.
  - injection H as ->. split; reflexivity.
  - injection H as -> H. destruct b; discriminate H.
  - injection H as -> H. destruct a; discriminate H.
  - injection H as -> H. destruct (IH b H) as [-> ->]. split; reflexivity.
Qed.

Lemma string_last (s : string) :
  s = "" \/ exists init c, s = init ++ String c "".
Proof.
  induction s as [| x s [-> | (init & c & ->)]].
  - left. reflexivity.
  - right. exists "", x. reflexivity.
  - right. exists (String x init), c. reflexivity.
Qed.

Lemma token_letter_not_white (c : ascii) :
  (c = "y" \/ c = "Y" \/ c = "s" \/ c = "S")%char ->
  is_white_space c = false.
Proof. intros [-> | [-> | [-> | ->]]]; reflexivity. Qed.

Lemma contains_inside (l t r : string) :
  contains_YES_any_case t -> contains_YES_any_case (l ++ t ++ r).
Proof.
  intros (pre & y & e & s & post & -> & Hc).
  exists (l ++ pre), y, e, s, (post ++ r). split; [| exact Hc].
  rewrite !string_app_assoc. reflexivity.
Qed.

Lemma contains_without_head (c : ascii) (x : string) :
  is_white_space c = true ->
  contains_YES_any_case (String c x) -> contains_YES_any_case x.
Proof.
  intros Hc (pre & y & e & s & post & H & Hy & Hrest).
  destruct pre as [| c' pre]; simpl in H; injection H as -> H.
  - rewrite token_letter_not_white in Hc by tauto. discriminate Hc.
  - exists pre, y, e, s, post. split; [exact H | split; assumption].
Qed.

Lemma contains_without_last (x : string) (c : ascii) :
  is_white_space c = true ->
  contains_YES_any_case (x ++ String c "") -> contains_YES_any_case x.
Proof.
  intros Hc (pre & y & e & s & post & H & Hy & He & Hs).
  destruct (string_last post) as [-> | (init & d & ->)].
  - change (pre ++ String y (String e (String s "")))
      with (pre ++ String y (String e "") ++ String s "") in H.
    rewrite <- string_app_assoc in H.
    apply string_snoc_inj in H as [_ ->].
    rewrite token_letter_not_white in Hc by tauto. discriminate Hc.
  - change (pre ++ String y (String e (String s (init ++ String d ""))))
      with (pre ++ String y (String e (String s init)) ++ String d "") in H.
    rewrite <- string_app_assoc in H.
    apply string_snoc_inj in H as [-> _].
    exists pre, y, e, s, init. repeat split; assumption.
Qed.

Lemma contains_without_white (l t r : string) :
  all_chars is_white_space l = true ->
  all_chars is_white_space r = true ->
  contains_YES_any_case (l ++ t ++ r) -> contains_YES_any_case t.
Proof.
  intros Hl Hr H.
  assert (contains_YES_any_case (t ++ r)) as Htr.
  { clear Hr. induction l as [| c l IH]; [exact H |].
    simpl in Hl. apply andb_true_iff in Hl as [Hc Hl].
    apply IH; [exact Hl |]. exact (contains_without_head c _ Hc H). }
  clear H Hl. revert t Htr. induction r as [| c r IH]; intros t Htr.
  - destruct (string_last t) as [-> | (init & d & ->)]; [exact Htr |].
    rewrite string_app_assoc in Htr. exact Htr.
  - simpl in Hr. apply andb_true_iff in Hr as [Hc Hr].
    apply (contains_without_last t c Hc). apply (IH Hr).
    rewrite string_app_assoc. exact Htr.
Qed.

Local Arguments toUpperCase : simpl never.

Lemma toUpperCase_ascii_char (c : ascii) (r : string) :
  is_ascii c = true ->
  toUpperCase (String c r) = String (upper_char c) (toUpperCase r).
Proof.
  intros H. change (toUpperCase (String c r))
    with (if is_ascii c then String (upper_char c) (toUpperCase r)
          else match r with
               | "" => String c ""
               | String c1 r1 =>
                   if is_byte 197 c && is_byte 191 c1 then
                     String "S" (toUpperCase r1)
                   else if is_byte 195 c && is_byte 159 c1 then
                     String "S" (String "S" (toUpperCase r1))
                   else
                     match r1 with
                     | String c2 r2 =>
                         if is_byte 239 c && is_byte 172 c1
                            && (is_byte 133 c2 || is_byte 134 c2) then
                           String "S" (String "T" (toUpperCase r2))
                         else String c (toUpperCase r)
                     | "" => String c (toUpperCase r)
                     end
               end).
  rewrite H. reflexivity.
Qed.

Lemma toUpperCase_other_char (c : ascii) (r : string) :
  is_ascii c = false ->
  toUpperCase (String c r) =
  match r with
  | "" => String c ""
  | String c1 r1 =>
      if is_byte 197 c && is_byte 191 c1 then String "S" (toUpperCase r1)
      else if is_byte 195 c && is_byte 159 c1 then
        String "S" (String "S" (toUpperCase r1))
      else
        match r1 with
        | String c2 r2 =>
            if is_byte 239 c && is_byte 172 c1
               && (is_byte 133 c2 || is_byte 134 c2) then
              String "S" (String "T" (toUpperCase r2))
            else String c (toUpperCase r)
        | "" => String c (toUpperCase r)
        end
  end.
Proof.
  intros H. change (toUpperCase (String c r))
    with (if is_ascii c then String (upper_char c) (toUpperCase r)
          else match r with
               | "" => String c ""
               | String c1 r1 =>
                   if is_byte 197 c && is_byte 191 c1 then
                     String "S" (toUpperCase r1)
                   else if is_byte 195 c && is_byte 159 c1 then
                     String "S" (String "S" (toUpperCase r1))
                   else
                     match r1 with
                     | String c2 r2 =>
                         if is_byte 239 c && is_byte 172 c1
                            && (is_byte 133 c2 || is_byte 134 c2) then
                           String "S" (String "T" (toUpperCase r2))
                         else String c (toUpperCase r)
                     | "" => String c (toUpperCase r)
                     end
               end).
  rewrite H. reflexivity.
Qed.

Lemma ascii_not_byte (n : nat) (c : ascii) :
  (128 <= n)%nat -> is_ascii c = true -> is_byte n c = false.
Proof.
  unfold is_ascii, is_byte. intros Hn Hc. apply Nat.ltb_lt in Hc.
  apply Nat.eqb_neq. lia.
Qed.

(** Upper-casing takes up again at an ASCII character, whatever bytes
    come before it. *)
Lemma toUpperCase_resumes (a : ascii) (x : string) :
  is_ascii a = true ->
  forall n pre, (String.length pre <= n)%nat ->
  exists u, toUpperCase (pre ++ String a x) = u ++ toUpperCase (String a x).
Proof.
  intros Ha.
  assert (is_byte 191 a = false) as H191 by (apply ascii_not_byte; [lia | exact Ha]).
  assert (is_byte 159 a = false) as H159 by (apply ascii_not_byte; [lia | exact Ha]).
  assert (is_byte 172 a = false) as H172 by (apply ascii_not_byte; [lia | exact Ha]).
  assert (is_byte 133 a = false) as H133 by (apply ascii_not_byte; [lia | exact Ha]).
  assert (is_byte 134 a = false) as H134 by (apply ascii_not_byte; [lia | exact Ha]).
  induction n as [| n IH]; intros pre Hlen.
  - destruct pre; [exists ""; reflexivity | simpl in Hlen; lia].
  - destruct pre as [| c r]; [exists ""; reflexivity |].
    simpl in Hlen. change (String c r ++ String a x)
      with (String c (r ++ String a x)).
    destruct (is_ascii c) eqn:Hc.
    + rewrite (toUpperCase_ascii_char _ _ Hc).
      destruct (IH r) as (u & ->); [lia |].
      exists (String (upper_char c) u). reflexivity.
    + rewrite (toUpperCase_other_char _ _ Hc).
      destruct r as [| c1 r1].
      * change ("" ++ String a x) with (String a x). cbv beta iota.
        rewrite H191, H159, H172, !andb_false_r.
        exists (String c ""). destruct x; reflexivity.
      * change (String c1 r1 ++ String a x)
          with (String c1 (r1 ++ String a x)).
        simpl in Hlen. cbv beta iota.
        destruct (is_byte 197 c && is_byte 191 c1).
        { destruct (IH r1) as (u & ->); [lia |].
          exists (String "S" u). reflexivity. }
        destruct (is_byte 195 c && is_byte 159 c1).
        { destruct (IH r1) as (u & ->); [lia |].
          exists (String "S" (String "S" u)). reflexivity. }
        destruct r1 as [| c2 r2].
        -- change ("" ++ String a x) with (String a x). cbv beta iota.
           rewrite H133, H134, !andb_false_r.
           destruct (IH (String c1 "")) as (u & Hu); [simpl; lia |].
           change (String c1 "" ++ String a x)
             with (String c1 (String a x)) in Hu.
           rewrite Hu. exists (String c u). reflexivity.
        -- change (String c2 r2 ++ String a x)
             with (String c2 (r2 ++ String a x)).
           simpl in Hlen. cbv beta iota.
           destruct (is_byte 239 c && is_byte 172 c1
                     && (is_byte 133 c2 || is_byte 134 c2)).
           ++ destruct (IH r2) as (u & ->); [lia |].
              exists (String "S" (String "T" u)). reflexivity.
           ++ destruct (IH (String c1 (String c2 r2))) as (u & Hu);
                [simpl; lia |].
              change (String c1 (String c2 r2) ++ String a x)
                with (String c1 (String c2 (r2 ++ String a x))) in Hu.
              rewrite Hu. exists (String c u). reflexivity.
Qed.

Lemma includes_after (u v needle : string) :
  starts_with v needle = true -> includes (u ++ v) needle = true.
Proof.
  intros H. induction u as [| c u IH].
  - destruct v; simpl; rewrite H; reflexivity.
  - change (includes (String c u ++ v) needle)
      with (starts_with (String c (u ++ v)) needle || includes (u ++ v) needle).
    rewrite IH. apply orb_true_r.
Qed.

Lemma token_letter_ascii (c : ascii) :
  (c = "y" \/ c = "Y" \/ c = "e" \/ c = "E" \/ c = "s" \/ c = "S")%char ->
  is_ascii c = true.
Proof. intros [-> | [-> | [-> | [-> | [-> | ->]]]]]; reflexivity. Qed.

(** A text that holds the token is approved, whatever else it holds. *)
Lemma token_approved (t : string) :
  contains_YES_any_case t -> includes (toUpperCase t) "YES" = true.
Proof.
  intros (pre & y & e & s & post & -> & Hy & He & Hs).
  assert (is_ascii y = true) as Hay by (apply token_letter_ascii; tauto).
  assert (is_ascii e = true) as Hae by (apply token_letter_ascii; tauto).
  assert (is_ascii s = true) as Has by (apply token_letter_ascii; tauto).
  destruct (toUpperCase_resumes y (String e (String s post)) Hay
              (String.length pre) pre (le_n _)) as (u & ->).
  apply includes_after.
  rewrite (toUpperCase_ascii_char _ _ Hay), (toUpperCase_ascii_char _ _ Hae),
    (toUpperCase_ascii_char _ _ Has).
  apply upper_char_Y in Hy. apply upper_char_E in He. apply upper_char_S in Hs.
  rewrite Hy, He, Hs. reflexivity.
Qed.

(** X6. The verdict is a substring test on the raw answer.  Any answer in
    which the letters y, e, s follow one another, in any mix of cases and
    anywhere (inside a longer word or sentence too), is approved; trimming
    changes nothing.  For an answer in ASCII the converse holds: it is
    approved only if it holds such a run.  Outside ASCII it does not: the
    capital form of U+017F is S, so "ye" followed by it is approved. *)
Theorem X6_verdict_is_a_substring_test :
  (forall raw, contains_YES_any_case raw -> isVerified raw = true) /\
  (forall raw, ascii_text raw -> isVerified raw = true ->
               contains_YES_any_case raw) /\
  (forall before after,
      isVerified (before ++ "yes" ++ after) = true /\
      isVerified (before ++ "YES" ++ after) = true) /\
  (isVerified ("ye" ++ long_s) = true /\
   ~ contains_YES_any_case ("ye" ++ long_s)).
Proof.
  assert (forall raw, contains_YES_any_case raw -> isVerified raw = true)
    as Happroved.
  { intros raw H. unfold isVerified. apply token_approved.
    destruct (trim_trimmed raw) as (l & r & Hs & Hl & Hr & _).
    rewrite Hs in H at 1. exact (contains_without_white _ _ _ Hl Hr H). }
  split; [exact Happroved |]. split.
  - intros raw Hascii H. unfold isVerified in H.
    rewrite (toUpperCase_ascii (trim raw) (trim_keeps_all _ _ Hascii)) in H.
    apply includes_YES_upper in H.
    destruct (trim_trimmed raw) as (l & r & Hs & _).
    rewrite Hs. apply contains_inside. exact H.
  - split.
    + intros before after. split; apply Happroved.
      * exists before, "y"%char, "e"%char, "s"%char, after. auto.
      * exists before, "Y"%char, "E"%char, "S"%char, after. auto.
    + split; [reflexivity |].
      intros H. apply includes_YES_upper in H. discriminate H.
Qed.

Lemma X6_verdict_is_a_substring_test_witness :
  isVerified "I saw this yesterday" = true.
Proof.
  apply (proj1 X6_verdict_is_a_substring_test "I saw this yesterday").
  exists "I saw this ", "y"%char, "e"%char, "s"%char, "terday".
  repeat split; left; reflexivity.
Defined.

End RawVerdict.

(** ** The checks, outcome by outcome *)

Lemma attempt_response_not_validation (w : World) (id : JsValue)
    (t u : string) (tr : Trace) (r : Response) :
  attempt_trace w id t u tr ->
  In r (responses tr) ->
  ~ classified r ValidationFailed.
Proof.
  intros Htr Hin Hvalidation.
  destruct (attempt_trace_observed _ _ _ _ _ Htr) as (_ & r' & Hr & _).
  rewrite Hr in Hin. destruct Hin as [<- | []].
  destruct Htr;
    try match type of Hr with
        | context [catch_trace ?e] =>
            rewrite responses_app in Hr; simpl in Hr;
            destruct (catch_trace_response e) as (r0 & Hr0 & Hc & _);
            rewrite Hr0 in Hr; injection Hr as ->;
            destruct (classified_boundary _ _ Hc)
              as [[_ ->] | [[_ ->] | [[_ ->] | [_ ->]]]];
            inversion Hvalidation
        end;
    simpl in Hr; injection Hr as <-; inversion Hvalidation.
Qed.

Ltac refute_table :=
  repeat match goal with
         | H : _ /\ _ |- _ => destruct H
         | H : exists _, _ |- _ => destruct H
         end;
  try reflexivity; try assumption; try congruence;
  try match goal with
      | H : [_] = [_] |- _ => vm_compute in H; discriminate H
      | H : [] = [_] |- _ => discriminate H
      end.

(** X7. Which of the four refusals a request meets is decided by the
    first check it fails, in the order presence, identifier, title,
    evidence: the "missing fields" answer exactly when one of the three
    fields is falsy; the identifier answer exactly when all are present
    and the identifier converts to NaN; the title answer exactly when,
    past those, the title is not a string of at most 500 characters; the
    evidence answer exactly when, past those, the evidence is not a
    string. *)
Theorem X7_validation_decision_table (w : World) (req : Request) :
  (responses (snd (run (verify_handler w req))) = [missing_fields] <->
   all_present req = false) /\
  (responses (snd (run (verify_handler w req))) = [invalid_challengeId] <->
   all_present req = true /\
   isNaN_Number (challengeId req) = Normal true) /\
  (responses (snd (run (verify_handler w req))) = [invalid_title] <->
   all_present req = true /\
   isNaN_Number (challengeId req) = Normal false /\
   forall s, title req = JString s -> (500 < String.length s)%nat) /\
  (responses (snd (run (verify_handler w req))) = [invalid_imageUrl] <->
   all_present req = true /\
   isNaN_Number (challengeId req) = Normal false /\
   (exists t, title req = JString t /\ (String.length t <= 500)%nat) /\
   forall s, imageUrl req <> JString s).
Proof.
  pose proof (handler_runs w req) as Hrun.
  inversion Hrun as [Hp | e Hp He | Hp Hn | Hp Hn Hlong | t' Hp Hn Ht' Hl Hnot
                     | t u id_text tr Hwf Hid Htr];
    simpl.
  - repeat split; intros; refute_table.
  - repeat split; intros; refute_table.
  - repeat split; intros; refute_table.
  - repeat split; intros; refute_table;
      try (apply Hlong; assumption);
      match goal with
      | H1 : title req = JString ?x, H2 : (String.length ?x <= 500)%nat |- _ =>
          specialize (Hlong x H1); lia
      end.
  - repeat split; intros; refute_table;
      try (exists t'; split; assumption);
      try (eapply Hnot; eassumption);
      match goal with
      | H : forall s, title req = JString s -> _ |- _ =>
          specialize (H t' Ht'); lia
      end.
  - pose proof (well_formed_present _ _ _ Hwf) as Hp.
    pose proof Hwf as (_ & Hn & Ht & _ & Hlen & Hu & _).
    destruct (attempt_trace_observed _ _ _ _ _ Htr) as (_ & r & Hr & _).
    assert (~ classified r ValidationFailed) as Hnot_validation.
    { apply (attempt_response_not_validation _ _ _ _ _ _ Htr).
      rewrite Hr. left. reflexivity. }
    rewrite Hr.
    repeat split; intros;
      try match goal with
          | H : [r] = [_] |- _ =>
              injection H as ->; exfalso; apply Hnot_validation; constructor
          end;
      repeat match goal with
             | H : _ /\ _ |- _ => destruct H
             | H : exists _, _ |- _ => destruct H
             end;
      try congruence;
      try match goal with
          | H : forall s, title req = JString s -> _ |- _ =>
              specialize (H t Ht); lia
          end.
Qed.

(** ** The identity-lookup proxy *)

Lemma is_address_form (address : string) :
  Farcaster.is_address address = true <->
  exists digits,
    address = String "0" (String "x" digits) /\
    String.length digits = 40%nat /\
    all_chars is_hex_digit digits = true.
Proof.
  split.
  - unfold Farcaster.is_address.
    destruct address as [| c0 [| c1 digits]]; try discriminate;
      try (destruct c0 as [[] [] [] [] [] [] [] []]; discriminate).
    destruct (Ascii.eqb_spec c0 "0") as [-> | Hc0];
      [| destruct c0 as [[] [] [] [] [] [] [] []]; try discriminate;
         exfalso; apply Hc0; reflexivity].
    destruct (Ascii.eqb_spec c1 "x") as [-> | Hc1];
      [| destruct c1 as [[] [] [] [] [] [] [] []]; try discriminate;
         exfalso; apply Hc1; reflexivity].
    intros H. apply andb_true_iff in H as [Hlen Hhex].
    apply Nat.eqb_eq in Hlen. exists digits. repeat split; assumption.
  - intros (digits & -> & Hlen & Hhex). unfold Farcaster.is_address.
    rewrite Hlen, Hhex. reflexivity.
Qed.

Lemma farcaster_refused (w : Farcaster.World) (address : string) :
  Farcaster.is_address address = false ->
  Farcaster.handler w address =
    (Normal tt, [Farcaster.Send Farcaster.invalid_address]).
Proof.
  intros H. unfold Farcaster.handler. rewrite H.
  rewrite orb_true_r. reflexivity.
Qed.

Lemma farcaster_unavailable (w : Farcaster.World) (address : string) :
  Farcaster.is_address address = true ->
  Farcaster.NEYNAR_API_KEY w = None \/
  Farcaster.NEYNAR_API_KEY w = Some ""%string ->
  Farcaster.handler w address =
    (Normal tt, [Farcaster.Send Farcaster.unavailable]).
Proof.
  intros H Hkey. unfold Farcaster.handler. rewrite H.
  apply is_address_form in H as (digits & -> & _).
  destruct Hkey as [-> | ->]; reflexivity.
Qed.

Lemma farcaster_lookup (w : Farcaster.World) (address key : string) :
  Farcaster.is_address address = true ->
  Farcaster.NEYNAR_API_KEY w = Some key -> key <> ""%string ->
  Farcaster.handler w address =
    match Farcaster.try_block w key address with
    | (Throw error, events) =>
        (Normal tt,
         events ++ [Farcaster.LogError (error_message error);
                    Farcaster.Send (Farcaster.lookup_failed 500)])
    | completed => completed
    end.
Proof.
  intros H Hkey Hne. unfold Farcaster.handler. rewrite H, Hkey.
  apply is_address_form in H as (digits & -> & _).
  destruct key; [exfalso; apply Hne; reflexivity | reflexivity].
Qed.

Lemma try_block_outcome (w : Farcaster.World) (key address : string) :
  lookup_outcome w key address (Farcaster.try_block w key address).
Proof.
  unfold Farcaster.try_block.
  destruct (Farcaster.fetch w (Farcaster.lookup_url address) key)
    as [response | e] eqn:Hfetch; [| constructor; exact Hfetch].
  destruct (Farcaster.ok response) eqn:Hok; cbn [negb];
    [| econstructor; eassumption].
  destruct (Farcaster.json response) as [data | e] eqn:Hjson;
    [| econstructor; eassumption].
  destruct (Farcaster.reply_from data address) as [r | e] eqn:Hreply;
    econstructor; eassumption.
Qed.

(** What a reply built from the upstream body is made of. *)
Lemma reply_from_made_of (data : JsValue) (address : string)
    (r : Farcaster.Reply) :
  Farcaster.reply_from data address = Normal r ->
  exists entry user,
    Get data (toLowerCase address) = Normal entry /\
    Get_optional entry "0" = Normal user /\
    ((ToBoolean user = false /\ r = Farcaster.no_profile) \/
     (ToBoolean user = true /\
      exists display username picture,
        Get user "display_name" = Normal display /\
        Get user "username" = Normal username /\
        Get user "pfp_url" = Normal picture /\
        r = Farcaster.profile (logical_or display username) picture)).
Proof.
  unfold Farcaster.reply_from.
  destruct (Get data (toLowerCase address)) as [entry | e] eqn:Hentry;
    [| discriminate].
  destruct (Get_optional entry "0") as [user | e] eqn:Huser; [| discriminate].
  destruct (ToBoolean user) eqn:Htruthy.
  - destruct (Get user "display_name") as [display | e] eqn:Hdisplay;
      destruct (Get user "username") as [username | e'] eqn:Husername;
      destruct (Get user "pfp_url") as [picture | e''] eqn:Hpicture;
      try discriminate.
    intros H. injection H as <-. exists entry, user.
    split; [reflexivity |]. split; [exact Huser |].
    right. split; [exact Htruthy |].
    exists display, username, picture. repeat split; assumption.
  - intros H. injection H as <-. exists entry, user.
    split; [reflexivity |]. split; [exact Huser |].
    left. split; [exact Htruthy | reflexivity].
Qed.

Ltac farcaster_run w address :=
  let Haddress := fresh "Haddress" in
  let Hkey := fresh "Hkey" in
  let Hout := fresh "Hout" in
  destruct (Farcaster.is_address address) eqn:Haddress;
  [ destruct (Farcaster.NEYNAR_API_KEY w) as [[| c0 k0] |] eqn:Hkey;
    [ rewrite (farcaster_unavailable w address Haddress (or_intror Hkey)) in *
    | rewrite (farcaster_lookup w address (String c0 k0) Haddress Hkey)
        in * by discriminate;
      pose proof (try_block_outcome w (String c0 k0) address) as Hout;
      inversion Hout;
      match goal with
      | H : _ = Farcaster.try_block _ _ _ |- _ => rewrite <- H in *
      end
    | rewrite (farcaster_unavailable w address Haddress (or_introl Hkey)) in * ]
  | rewrite (farcaster_refused w address Haddress) in * ].

(** X9. The upstream service is contacted only for an address of the
    form 0x followed by 40 hexadecimal digits, only when an API key is
    configured, with that key, at the lookup URL of the address as it was
    given, and at most once. *)
Theorem X9_farcaster_fetch_only_when_valid (w : Farcaster.World)
    (address url key : string) :
  In (url, key) (Farcaster.fetches (snd (Farcaster.handler w address))) ->
  (exists digits,
      address = String "0" (String "x" digits) /\
      String.length digits = 40%nat /\
      all_chars is_hex_digit digits = true) /\
  Farcaster.NEYNAR_API_KEY w = Some key /\ key <> ""%string /\
  url = Farcaster.lookup_url address /\
  Farcaster.fetches (snd (Farcaster.handler w address)) = [(url, key)].
Proof.
  intros Hin. farcaster_run w address; simpl in Hin; try contradiction;
    destruct Hin as [Hin | []]; injection Hin as <- <-;
    (split; [apply is_address_form; exact Haddress |]);
    repeat split; try assumption; discriminate.
Qed.

Lemma X9_farcaster_fetch_only_when_valid_witness :
  Farcaster.fetches
    (snd (Farcaster.handler
            {| Farcaster.NEYNAR_API_KEY := Some "secret"%string;
               Farcaster.fetch := fun _ _ =>
                 Rejected (TypeError "fetch failed") |}
            "0xAbCdEf0123456789aBcDeF0123456789abCDef01"))
  = [(Farcaster.lookup_url "0xAbCdEf0123456789aBcDeF0123456789abCDef01",
      "secret"%string)].
Proof.
  apply (X9_farcaster_fetch_only_when_valid
           {| Farcaster.NEYNAR_API_KEY := Some "secret"%string;
              Farcaster.fetch := fun _ _ =>
                Rejected (TypeError "fetch failed") |}
           "0xAbCdEf0123456789aBcDeF0123456789abCDef01"
           (Farcaster.lookup_url "0xAbCdEf0123456789aBcDeF0123456789abCDef01")
           "secret").
  vm_compute. left. reflexivity.
Defined.

(** X10. The proxy always answers: every run completes normally and sends
    exactly one reply, whatever the address, the configuration and the
    behaviour of the upstream service (a rejected fetch, a body that is
    not JSON, a body that is [null] or of an unexpected shape). *)
Theorem X10_farcaster_always_replies (w : Farcaster.World) (address : string) :
  fst (Farcaster.handler w address) = Normal tt /\
  exists r, Farcaster.replies (snd (Farcaster.handler w address)) = [r].
Proof.
  farcaster_run w address; simpl; split; try reflexivity;
    eexists; reflexivity.
Qed.

(** X11. A refusal of the proxy tells the caller nothing of the failure
    behind it: a reply with [success: false] carries one of four fixed
    messages and neither name nor avatar; its status is 400, 503, 500,
    200 (no profile), or the upstream's own status when the upstream
    answered outside 200-299. *)
Theorem X11_farcaster_refusals_are_fixed (w : Farcaster.World)
    (address : string) (r : Farcaster.Reply) :
  In r (Farcaster.replies (snd (Farcaster.handler w address))) ->
  Farcaster.success r = false ->
  (exists m, Farcaster.message r = Some m /\ In m Farcaster.fixed_messages) /\
  Farcaster.name r = JUndefined /\ Farcaster.avatar r = JUndefined /\
  (In (Farcaster.code r) [400; 503; 500; 200]%N \/
   exists key response,
     Farcaster.fetch w (Farcaster.lookup_url address) key
       = Fulfilled response /\
     Farcaster.ok response = false /\
     Farcaster.code r = Farcaster.status response).
Proof.
  intros Hin Hfailure.
  farcaster_run w address; simpl in Hin; try contradiction;
    destruct Hin as [<- | []];
    try (split; [eexists; split; [reflexivity | simpl; tauto] |];
         split; [reflexivity |]; split; [reflexivity |];
         first [ left; simpl; tauto
               | right; eexists; eexists; split; [eassumption |];
                 split; [assumption | reflexivity] ]).
  match goal with
  | H : Farcaster.reply_from _ _ = Normal _ |- _ =>
      destruct (reply_from_made_of _ _ _ H)
        as (entry & user & _ & _ & [[_ ->] | [_ (d & n & p & _ & _ & _ & ->)]])
  end.
  - split; [eexists; split; [reflexivity | simpl; tauto] |].
    split; [reflexivity |]. split; [reflexivity |]. left. simpl. tauto.
  - discriminate Hfailure.
Qed.

Lemma X11_farcaster_refusals_are_fixed_witness :
  (exists m,
      Farcaster.message (Farcaster.lookup_failed 401) = Some m /\
      In m Farcaster.fixed_messages) /\
  Farcaster.name (Farcaster.lookup_failed 401) = JUndefined /\
  Farcaster.avatar (Farcaster.lookup_failed 401) = JUndefined /\
  (In (Farcaster.code (Farcaster.lookup_failed 401)) [400; 503; 500; 200]%N \/
   exists (key : string) response,
     Fulfilled {| Farcaster.status := 401;
                  Farcaster.json := Rejected (TypeError "Unexpected token") |}
       = Fulfilled response /\
     Farcaster.ok response = false /\
     Farcaster.code (Farcaster.lookup_failed 401) = Farcaster.status response).
Proof.
  apply (X11_farcaster_refusals_are_fixed
           {| Farcaster.NEYNAR_API_KEY := Some "secret"%string;
              Farcaster.fetch := fun _ _ =>
                Fulfilled {| Farcaster.status := 401;
                             Farcaster.json :=
                               Rejected (TypeError "Unexpected token") |} |}
           "0xAbCdEf0123456789aBcDeF0123456789abCDef01"
           (Farcaster.lookup_failed 401)).
  - vm_compute. left. reflexivity.
  - reflexivity.
Defined.

(** X12. A profile is reported only from a successful upstream answer: a
    reply with [success: true] has status 200 and no message; the upstream
    answered within 200-299 with a JSON body, the body holds, under the
    lower-cased address, a list whose first entry is truthy, and the name
    is that entry's display name or, when that is falsy, its username, the
    avatar its picture URL. *)
Theorem X12_farcaster_profile_comes_from_upstream (w : Farcaster.World)
    (address : string) (r : Farcaster.Reply) :
  In r (Farcaster.replies (snd (Farcaster.handler w address))) ->
  Farcaster.success r = true ->
  Farcaster.code r = 200%N /\ Farcaster.message r = None /\
  exists key response data entry user display username,
    Farcaster.NEYNAR_API_KEY w = Some key /\
    Farcaster.fetch w (Farcaster.lookup_url address) key
      = Fulfilled response /\
    Farcaster.ok response = true /\
    Farcaster.json response = Fulfilled data /\
    Get data (toLowerCase address) = Normal entry /\
    Get_optional entry "0" = Normal user /\
    ToBoolean user = true /\
    Get user "display_name" = Normal display /\
    Get user "username" = Normal username /\
    Farcaster.name r = (if ToBoolean display then display else username) /\
    Get user "pfp_url" = Normal (Farcaster.avatar r).
Proof.
  intros Hin Hsuccess.
  farcaster_run w address; simpl in Hin; try contradiction;
    destruct Hin as [<- | []]; try discriminate Hsuccess.
  match goal with
  | H : Farcaster.reply_from _ _ = Normal _ |- _ =>
      destruct (reply_from_made_of _ _ _ H)
        as (entry & user & Hentry & Huser
            & [[_ ->] | [Htruthy (d & n & p & Hd & Hn & Hpic & ->)]])
  end; [discriminate Hsuccess |].
  split; [reflexivity |]. split; [reflexivity |].
  exists (String c0 k0), response, data, entry, user, d, n.
  repeat split; assumption.
Qed.

Lemma X12_farcaster_profile_comes_from_upstream_witness :
  Farcaster.code (Farcaster.profile (JString "dwr") (JString "https://i.example/p.png")) = 200%N.
Proof.
  apply (X12_farcaster_profile_comes_from_upstream
           {| Farcaster.NEYNAR_API_KEY := Some "secret"%string;
              Farcaster.fetch := fun _ _ =>
                Fulfilled
                  {| Farcaster.status := 200;
                     Farcaster.json :=
                       Fulfilled
                         (JObject
                            [("0xabcdef0123456789abcdef0123456789abcdef01"%string,
                              JArray
                                [JObject
                                   [("display_name"%string, JString "");
                                    ("username"%string, JString "dwr");
                                    ("pfp_url"%string,
                                     JString "https://i.example/p.png")]])])
                  |} |}
           "0xAbCdEf0123456789aBcDeF0123456789abCDef01"
           (Farcaster.profile (JString "dwr")
              (JString "https://i.example/p.png"))).
  - vm_compute. left. reflexivity.
  - reflexivity.
Defined.

(** ** The allowlist of origins *)

Section Allowlist.

Local Open Scope string_scope.

Lemma string_app_empty (s : string) : s ++ "" = s.
Proof. induction s as [| c s IH]; simpl; [| rewrite IH]; reflexivity. Qed.

Lemma trim_idempotent (s : string) : trim (trim s) = trim s.
Proof.
  symmetry. apply trimmed_unique.
  destruct (trim_trimmed s) as (l & r & _ & _ & _ & Hhead & Hlast).
  exists "", "". repeat split; try assumption.
  simpl. rewrite string_app_empty. reflexivity.
Qed.

Lemma split_not_empty (sep : ascii) (s : string) : split sep s <> [].
Proof.
  induction s as [| c s IH]; simpl; [discriminate |].
  destruct (c =? sep)%char; [discriminate |].
  destruct (split sep s); discriminate.
Qed.

Lemma split_pieces_without_separator (sep : ascii) (s piece : string) :
  In piece (split sep s) ->
  all_chars (fun c => negb (c =? sep)%char) piece = true.
Proof.
  revert piece. induction s as [| c s IH]; simpl; intros piece Hin.
  - destruct Hin as [<- | []]. reflexivity.
  - destruct (c =? sep)%char eqn:Hc.
    + destruct Hin as [<- | Hin]; [reflexivity | exact (IH _ Hin)].
    + destruct (split sep s) as [| first rest] eqn:Hsplit.
      * exfalso. exact (split_not_empty sep s Hsplit).
      * destruct Hin as [<- | Hin].
        -- simpl. rewrite Hc. simpl. apply IH. left. reflexivity.
        -- apply IH. right. exact Hin.
Qed.

(** Joining the pieces with the separator gives the text back. *)
Lemma split_concat (sep : ascii) (s : string) :
  String.concat (String sep "") (split sep s) = s.
Proof.
  induction s as [| c s IH]; [reflexivity |].
  simpl split. destruct (c =? sep)%char eqn:Hc.
  - apply Ascii.eqb_eq in Hc. subst c.
    destruct (split sep s) as [| first rest] eqn:Hsplit;
      [exfalso; exact (split_not_empty sep s Hsplit) |].
    change (String.concat (String sep "") ("" :: first :: rest))
      with ("" ++ String sep "" ++ String.concat (String sep "") (first :: rest)).
    rewrite IH. reflexivity.
  - destruct (split sep s) as [| first rest] eqn:Hsplit;
      [exfalso; exact (split_not_empty sep s Hsplit) |].
    rewrite <- IH. destruct rest; reflexivity.
Qed.

(** X13. With [ALLOWED_ORIGINS] set, a request that names an origin is
    let through exactly when the origin equals one of the comma-separated
    entries of the variable with the white space around it removed; such
    an origin has no white space at its ends and no comma.  The default
    origin is not added to a set variable, and a request without origin
    is always let through. *)
Theorem X13_cors_allowlist (value o : string) :
  o <> "" ->
  (Cors.origin_allowed (Cors.allowedOrigins (Some value)) (Some o) = true <->
   exists piece, In piece (split "," value) /\ trim piece = o) /\
  (Cors.origin_allowed (Cors.allowedOrigins (Some value)) (Some o) = true ->
   trim o = o /\ Cors.has_comma o = false) /\
  String.concat "," (split "," value) = value /\
  (forall allowed, Cors.origin_allowed allowed None = true /\
                   Cors.origin_allowed allowed (Some "") = true).
Proof.
  intros Hne.
  assert (Cors.origin_allowed (Cors.allowedOrigins (Some value)) (Some o) = true
          <-> exists piece, In piece (split "," value) /\ trim piece = o)
    as Hiff.
  { unfold Cors.origin_allowed, Cors.allowedOrigins, Array_includes.
    rewrite (proj2 (truthy_string o) Hne). cbn [negb orb].
    rewrite existsb_exists. split.
    - intros (x & Hin & Heq). apply String.eqb_eq in Heq. subst x.
      apply in_map_iff in Hin as (piece & Htrim & Hin).
      exists piece. split; assumption.
    - intros (piece & Hin & Htrim). exists o. split.
      + rewrite <- Htrim. apply in_map. exact Hin.
      + apply String.eqb_refl. }
  split; [exact Hiff |]. split; [| split].
  - intros Hallowed. apply Hiff in Hallowed as (piece & Hin & <-).
    split; [apply trim_idempotent |].
    unfold Cors.has_comma.
    rewrite (trim_keeps_all _ _ (split_pieces_without_separator _ _ _ Hin)).
    reflexivity.
  - apply split_concat.
  - intros allowed. split; reflexivity.
Qed.

Lemma X13_cors_allowlist_witness :
  Cors.origin_allowed
    (Cors.allowedOrigins (Some "http://localhost:5173, https://app.touchgrass.com"))
    (Some "https://app.touchgrass.com") = true <->
  exists piece,
    In piece (split "," "http://localhost:5173, https://app.touchgrass.com") /\
    trim piece = "https://app.touchgrass.com".
Proof.
  apply (X13_cors_allowlist
           "http://localhost:5173, https://app.touchgrass.com"
           "https://app.touchgrass.com").
  discriminate.
Defined.

End Allowlist.

(** ** Start-up *)

Lemma fatal_none (env : string -> option string) (vars : list string) :
  Startup.fatal env vars = None <->
  forall v, In v vars -> exists s, env v = Some s /\ s <> ""%string.
Proof.
  induction vars as [| x vars IH]; simpl.
  - split; [intros _ v [] | reflexivity].
  - unfold Startup.unset at 1.
    destruct (env x) as [[| c s] |] eqn:Hx; simpl.
    + split; [discriminate |]. intros H.
      destruct (H x (or_introl eq_refl)) as (s & Hs & Hne).
      rewrite Hx in Hs. injection Hs as <-. exfalso. apply Hne. reflexivity.
    + rewrite IH. split.
      * intros H v [<- | Hin]; [| exact (H v Hin)].
        exists (String c s). split; [exact Hx | discriminate].
      * intros H v Hin. apply H. right. exact Hin.
    + split; [discriminate |]. intros H.
      destruct (H x (or_introl eq_refl)) as (s & Hs & _).
      rewrite Hx in Hs. discriminate Hs.
Qed.

Lemma fatal_some (env : string -> option string) (vars : list string)
    (v : string) :
  Startup.fatal env vars = Some v ->
  exists before after,
    vars = before ++ v :: after /\
    Startup.unset env v = true /\
    forall x, In x before -> Startup.unset env x = false.
Proof.
  induction vars as [| x vars IH]; simpl; [discriminate |].
  destruct (Startup.unset env x) eqn:Hx.
  - intros H. injection H as <-. exists [], vars.
    repeat split; [exact Hx | intros y []].
  - intros H. destruct (IH H) as (before & after & -> & Hv & Hbefore).
    exists (x :: before), after. repeat split; [exact Hv |].
    intros y [<- | Hin]; [exact Hx | exact (Hbefore y Hin)].
Qed.

(** X14. The server starts only with the three required variables set to
    non-empty values (an empty value counts as missing); otherwise the
    process exits at the first of them, in the order private key, contract
    address, API key, that is unset or empty. *)
Theorem X14_startup_requires_all (env : string -> option string) :
  (Startup.validate_environment env = None <->
   (exists k, env "VERIFIER_PRIVATE_KEY"%string = Some k /\ k <> ""%string) /\
   (exists a, env "CONTRACT_ADDRESS"%string = Some a /\ a <> ""%string) /\
   (exists o, env "OPENROUTER_API_KEY"%string = Some o /\ o <> ""%string)) /\
  (forall v,
      Startup.validate_environment env = Some v ->
      exists before after,
        Startup.requiredEnvVars = before ++ v :: after /\
        Startup.unset env v = true /\
        forall x, In x before -> Startup.unset env x = false).
Proof.
  split.
  - unfold Startup.validate_environment. rewrite fatal_none. split.
    + intros H. repeat split; apply H; simpl; auto.
    + intros (Hk & Ha & Ho) v [<- | [<- | [<- | []]]]; assumption.
  - intros v. apply fatal_some.
Qed.

Lemma X14_startup_requires_all_witness :
  exists before after,
    Startup.requiredEnvVars = before ++ "CONTRACT_ADDRESS"%string :: after /\
    Startup.unset
      (fun v => if (v =? "CONTRACT_ADDRESS")%string then Some ""%string
                else Some "set"%string)
      "CONTRACT_ADDRESS" = true /\
    forall x, In x before ->
              Startup.unset
                (fun v => if (v =? "CONTRACT_ADDRESS")%string then Some ""%string
                          else Some "set"%string) x = false.
Proof.
  apply (proj2 (X14_startup_requires_all
                  (fun v => if (v =? "CONTRACT_ADDRESS")%string
                            then Some ""%string else Some "set"%string))
           "CONTRACT_ADDRESS"%string).
  reflexivity.
Defined.

Lemma X2_evaluator_called_iff_well_formed_witness :
  In (chat_request "Run 5km" "data:image/jpeg;base64,/9j/4AAQ")
     (evaluator_calls
        (snd (run (verify_handler
                     (world (answers 1200 (Some "NO")) (Fulfilled tx_included))
                     request_42)))).
Proof.
  apply (proj2 (X2_evaluator_called_iff_well_formed
                  (world (answers 1200 (Some "NO")) (Fulfilled tx_included))
                  request_42
                  (chat_request "Run 5km" "data:image/jpeg;base64,/9j/4AAQ"))).
  exists "Run 5km"%string, "data:image/jpeg;base64,/9j/4AAQ"%string.
  split; [exact request_42_well_formed | reflexivity].
Defined.

Lemma X3_single_shot_witness :
  JString "42" = challengeId request_42 /\ 200000%N = 200000%N /\
  evaluator_calls
    (snd (run (verify_handler
                 (world (answers 1200 (Some "YES")) (Fulfilled tx_included))
                 request_42))) <> [] /\
  exists before after,
    snd (run (verify_handler
                (world (answers 1200 (Some "YES")) (Fulfilled tx_included))
                request_42)) =
      before ++ VerifySuccess (JString "42") 200000 :: after /\
    evaluator_calls before =
      evaluator_calls
        (snd (run (verify_handler
                     (world (answers 1200 (Some "YES")) (Fulfilled tx_included))
                     request_42))) /\
    responses before = [] /\
    ledger_calls before = [] /\
    ledger_calls after = [].
Proof.
  apply (proj1 (proj2 (proj2 (proj2
           (X3_single_shot
              (world (answers 1200 (Some "YES")) (Fulfilled tx_included))
              request_42))))
           (JString "42") 200000%N).
  vm_compute. left. reflexivity.
Defined.

Lemma X7_validation_decision_table_witness :
  responses
    (snd (run (verify_handler
                 (world (answers 1200 (Some "YES")) (Fulfilled tx_included))
                 {| challengeId := JString "abc";
                    title := JString "Run 5km";
                    imageUrl := JNumber (Finite false 7 1) |})))
  = [invalid_challengeId].
Proof.
  apply (proj2 (proj1 (proj2
           (X7_validation_decision_table
              (world (answers 1200 (Some "YES")) (Fulfilled tx_included))
              {| challengeId := JString "abc";
                 title := JString "Run 5km";
                 imageUrl := JNumber (Finite false 7 1) |})))).
  split; reflexivity.
Defined.

(** ** Identifiers the check lets through *)

Section LooseIdentifiers.

Local Open Scope string_scope.
Local Arguments Ascii.eqb : simpl never.

Lemma hex_digit_not_white (c : ascii) :
  is_hex_digit c = true -> is_white_space c = false.
Proof.
  destruct c as [[] [] [] [] [] [] [] []]; vm_compute; intros H;
    try discriminate H; reflexivity.
Qed.

Lemma trimEnd_hex (s : string) :
  all_chars is_hex_digit s = true -> trimEnd s = s.
Proof.
  induction s as [| c r IH]; simpl; [reflexivity |].
  intros H. apply andb_true_iff in H as [Hc Hr]. rewrite (IH Hr).
  destruct r; [| reflexivity].
  rewrite (hex_digit_not_white c Hc). reflexivity.
Qed.

Lemma trimStart_white (s : string) :
  all_chars is_white_space s = true -> trimStart s = "".
Proof.
  induction s as [| c s IH]; simpl; [reflexivity |].
  intros H. apply andb_true_iff in H as [Hc Hs]. rewrite Hc. exact (IH Hs).
Qed.

(** Hexadecimal text converts to a number. *)
Lemma hex_text_converts (h : string) :
  one_or_more is_hex_digit h = true ->
  StringToNumber_isNaN ("0x" ++ h) = false.
Proof.
  intros Hone.
  assert (all_chars is_hex_digit h = true) as Hall
    by (destruct h; [discriminate Hone | exact Hone]).
  unfold StringToNumber_isNaN, trim.
  change (trimStart ("0x" ++ h)) with (String "0" (String "x" h)).
  assert (trimEnd (String "0" (String "x" h)) = String "0" (String "x" h))
    as ->.
  { change (trimEnd (String "0" (String "x" h)))
      with (match
               match trimEnd h with
               | "" => String "x" ""
               | r' => String "x" r'
               end
             with
             | "" => String "0" ""
             | r' => String "0" r'
             end).
    rewrite (trimEnd_hex h Hall). destruct h; reflexivity. }
  change (is_NonDecimalIntegerLiteral (String "0" (String "x" h)))
    with (one_or_more is_hex_digit h).
  rewrite Hone, orb_true_r. reflexivity.
Qed.

(** X15. The identifier check is looser than "a valid number": a text of
    white space only, and a hexadecimal text such as 0x1F, pass it like a
    decimal one; with a valid title and evidence the evaluator is then
    consulted, and any ledger call carries the identifier as given. *)
Theorem X15_loose_identifiers_pass (w : World) (req : Request)
    (id t u : string) :
  challengeId req = JString id ->
  (id <> "" /\ all_chars is_white_space id = true) \/
  (exists h, id = "0x" ++ h /\ one_or_more is_hex_digit h = true) ->
  title req = JString t -> t <> "" -> (String.length t <= 500)%nat ->
  imageUrl req = JString u -> u <> "" ->
  well_formed req t u /\
  evaluator_calls (snd (run (verify_handler w req))) = [chat_request t u].
Proof.
  intros Hid Hform Ht Htne Hlen Hu Hune.
  assert (well_formed req t u) as Hwf.
  { repeat split; try assumption; rewrite Hid.
    - destruct Hform as [[Hne _] | (h & -> & _)];
        [apply truthy_string; exact Hne | reflexivity].
    - simpl. f_equal. destruct Hform as [[_ Hwhite] | (h & -> & Hhex)].
      + unfold StringToNumber_isNaN, trim.
        rewrite (trimStart_white _ Hwhite). reflexivity.
      + exact (hex_text_converts h Hhex). }
  split; [exact Hwf |].
  destruct (handler_of_well_formed w req t u Hwf) as (id_text & tr & -> & Htr).
  destruct (attempt_trace_observed _ _ _ _ _ Htr) as (Hcalls & _).
  simpl. exact Hcalls.
Qed.

Lemma X15_loose_identifiers_pass_witness :
  evaluator_calls
    (snd (run (verify_handler
                 (world (answers 1200 (Some "NO")) (Fulfilled tx_included))
                 {| challengeId := JString "   ";
                    title := JString "Run 5km";
                    imageUrl := JString "data:image/jpeg;base64,/9j/4AAQ" |})))
  = [chat_request "Run 5km" "data:image/jpeg;base64,/9j/4AAQ"].
Proof.
  apply (X15_loose_identifiers_pass
           (world (answers 1200 (Some "NO")) (Fulfilled tx_included))
           {| challengeId := JString "   ";
              title := JString "Run 5km";
              imageUrl := JString "data:image/jpeg;base64,/9j/4AAQ" |}
           "   " "Run 5km" "data:image/jpeg;base64,/9j/4AAQ");
    try reflexivity; try discriminate.
  - left. split; [discriminate | reflexivity].
  - simpl. lia.
Defined.

End LooseIdentifiers.
